(** * Host Agent (EyeVi_Agent/app/agents/host_agent/main.py)

    A shallow embedding of the FastAPI host agent: the [/chat] endpoint with
    its upload handling, the chat-history endpoint and the session endpoints,
    together with the Python and library notions they rest on (truthiness,
    slicing, [base64.b64encode]).  Definitions come first, the facts proved
    about them follow. *)

From Stdlib Require Import NArith ZArith List Lia.
From Stdlib Require Import Strings.String Strings.Byte.
From stdpp Require Import base option list gmap.

Set Default Proof Using "Type".

(** ** Python values *)

Module Py.

(** A Python [str] is a sequence of Unicode code points; slicing and [len]
    count code points, not bytes. *)
Definition char := N.
Definition str := list char.

(** Source literals are written as UTF-8 text; [lit] turns the bytes of such
    a literal into its code points (sequences of one to four bytes). *)
Definition cont (b : byte) : N := (Byte.to_N b mod 64)%N.

Fixpoint utf8_decode (bs : list byte) : str :=
  match bs with
  | [] => []
  | b0 :: r0 =>
      let n0 := Byte.to_N b0 in
      if (n0 <? 128)%N then n0 :: utf8_decode r0
      else match r0 with
      | [] => [n0]
      | b1 :: r1 =>
          if (n0 <? 224)%N
          then ((n0 mod 32) * 64 + cont b1)%N :: utf8_decode r1
          else match r1 with
          | [] => [n0]
          | b2 :: r2 =>
              if (n0 <? 240)%N
              then ((n0 mod 16) * 4096 + cont b1 * 64 + cont b2)%N
                     :: utf8_decode r2
              else match r2 with
              | [] => [n0]
              | b3 :: r3 =>
                  ((n0 mod 8) * 262144 + cont b1 * 4096
                     + cont b2 * 64 + cont b3)%N :: utf8_decode r3
              end
          end
      end
  end.

Definition lit (s : string) : str := utf8_decode (list_byte_of_string s).

(** Truthiness of a [str] and of an [Optional[str]]: [None] and the empty
    string are falsy. *)
Definition truthy_str (s : str) : bool :=
  match s with [] => false | _ :: _ => true end.

Definition truthy (o : option str) : bool :=
  match o with None => false | Some s => truthy_str s end.

(** [a or b] on an optional string with a string default. *)
Definition or_default (o : option str) (d : str) : str :=
  match o with
  | Some s => if truthy_str s then s else d
  | None => d
  end.

(** [l[i]] for a possibly negative index; [None] stands for [IndexError]. *)
Definition getitem {A} (l : list A) (i : Z) : option A :=
  let n := Z.of_nat (length l) in
  if (i <? 0)%Z
  then (if (i + n <? 0)%Z then None else l !! Z.to_nat (i + n))
  else l !! Z.to_nat i.

(** Truthiness of a list: non-empty. *)
Definition truthy_list {A} (l : list A) : bool :=
  match l with [] => false | _ :: _ => true end.

(** [l[:n]] for a non-negative bound. *)
Definition slice_to {A} (l : list A) (n : nat) : list A := take n l.

(** Exceptions, by class. *)
Inductive exn :=
| Exception (msg : str)
| KeyError (key : str)
| IndexError (msg : str)
| ValidationError (model : str) (fields : list str).

(** [repr(s)] of a [str]: the text is put between single quotes, or between
    double quotes when it has a single quote and no double one; the quote in
    use and the backslash are escaped, tab, line feed and carriage return are
    written with their letters and the other control characters of ASCII as
    [\xhh].  Code points beyond ASCII are kept as they are, as [repr] does
    for the printable ones. *)
Definition quote : char := 39%N.
Definition double_quote : char := 34%N.
Definition backslash : char := 92%N.
Definition newline : char := 10%N.
Definition digit (n : nat) : char := (48 + N.of_nat n)%N.

Definition hex_digit (d : N) : char :=
  if (d <? 10)%N then (48 + d)%N else (87 + d)%N.

Definition repr_char (q c : char) : str :=
  if (c =? q)%N || (c =? backslash)%N then [backslash; c]
  else if (c =? 9)%N then [backslash; 116%N]
  else if (c =? 10)%N then [backslash; 110%N]
  else if (c =? 13)%N then [backslash; 114%N]
  else if (c <? 32)%N || (c =? 127)%N
       then [backslash; 120%N; hex_digit (c / 16); hex_digit (c mod 16)]
  else [c].

Definition repr (s : str) : str :=
  let q :=
    if existsb (N.eqb quote) s && negb (existsb (N.eqb double_quote) s)
    then double_quote else quote in
  q :: concat (map (repr_char q) s) ++ [q].

(** [str(e)].  A [KeyError] prints the [repr] of its key.  Pydantic's report
    is a multi-line text whose detail lines depend on its version; it is
    abbreviated to its heading followed by the fields at fault, one a line. *)

Definition str_exn (e : exn) : str :=
  match e with
  | Exception msg => msg
  | KeyError key => repr key
  | IndexError msg => msg
  | ValidationError model fields =>
      digit (length fields)
        :: lit (if Nat.eqb (length fields) 1
                then " validation error for " else " validation errors for ")
        ++ model ++ concat (map (fun f => newline :: f) fields)
  end.

(** Outcome of a call: a value, or a raised exception. *)
Inductive result (A : Type) :=
| Ok (a : A)
| Raise (e : exn).
Arguments Ok {A} a.
Arguments Raise {A} e.

Definition bind {A B} (m : result A) (k : A -> result B) : result B :=
  match m with
  | Ok a => k a
  | Raise e => Raise e
  end.

(** A [for] loop whose body may raise: the accumulator is threaded through
    the items in order and the first exception ends the loop. *)
Fixpoint for_each {A S} (body : S -> A -> result S) (items : list A) (acc : S)
  : result S :=
  match items with
  | [] => Ok acc
  | x :: r =>
      match body acc x with
      | Ok acc' => for_each body r acc'
      | Raise e => Raise e
      end
  end.

End Py.

Notation "'let*' x ':=' m 'in' k" := (Py.bind m (fun x => k))
  (at level 10, x name, m at level 100, k at level 200).

(** ** [base64] (RFC 4648, standard alphabet, with padding) *)

Module Base64.

Definition alphabet : list byte :=
  list_byte_of_string
    "ABCDEFGHIJKLMNOPQRSTUVWXYZabcdefghijklmnopqrstuvwxyz0123456789+/".

Definition pad : byte := "="%byte.

Definition b64char (n : N) : byte := nth (N.to_nat n) alphabet pad.

Fixpoint index_from (c : byte) (l : list byte) (i : N) : option N :=
  match l with
  | [] => None
  | x :: r => if Byte.eqb c x then Some i else index_from c r (N.succ i)
  end.

Definition b64val (c : byte) : option N := index_from c alphabet 0%N.

(** [base64.b64encode]: three bytes become four sextets; a final group of one
    or two bytes is padded with [=]. *)
Fixpoint b64encode (bs : list byte) : list byte :=
  match bs with
  | [] => []
  | [b0] =>
      let n0 := Byte.to_N b0 in
      [b64char (n0 / 4); b64char (n0 mod 4 * 16); pad; pad]
  | [b0; b1] =>
      let n0 := Byte.to_N b0 in
      let n1 := Byte.to_N b1 in
      [b64char (n0 / 4); b64char (n0 mod 4 * 16 + n1 / 16);
       b64char (n1 mod 16 * 4); pad]
  | b0 :: b1 :: b2 :: rest =>
      let n0 := Byte.to_N b0 in
      let n1 := Byte.to_N b1 in
      let n2 := Byte.to_N b2 in
      b64char (n0 / 4) :: b64char (n0 mod 4 * 16 + n1 / 16)
        :: b64char (n1 mod 16 * 4 + n2 / 64) :: b64char (n2 mod 64)
        :: b64encode rest
  end%N.

(** [base64.b64decode] on well-formed input: groups of four characters,
    padding only in the last group; anything else is rejected. *)
Fixpoint b64decode (cs : list byte) : option (list byte) :=
  match cs with
  | [] => Some []
  | c0 :: c1 :: c2 :: c3 :: rest =>
      if Byte.eqb c3 pad then
        match rest with
        | [] =>
            v0 ← b64val c0;
            v1 ← b64val c1;
            x ← Byte.of_N (v0 * 4 + v1 / 16);
            if Byte.eqb c2 pad then Some [x]
            else
              v2 ← b64val c2;
              y ← Byte.of_N (v1 mod 16 * 16 + v2 / 4);
              Some [x; y]
        | _ :: _ => None
        end
      else
        v0 ← b64val c0;
        v1 ← b64val c1;
        v2 ← b64val c2;
        v3 ← b64val c3;
        x ← Byte.of_N (v0 * 4 + v1 / 16);
        y ← Byte.of_N (v1 mod 16 * 16 + v2 / 4);
        z ← Byte.of_N (v2 mod 4 * 64 + v3);
        tl ← b64decode rest;
        Some (x :: y :: z :: tl)
  | _ => None
  end%N.

(** [bytes.decode('utf-8')] on ASCII bytes (all that [b64encode] emits): one
    code point per byte. *)
Definition decode_ascii (bs : list byte) : Py.str := map Byte.to_N bs.

(** [str.encode('ascii')]; [None] when a code point is not a byte. *)
Definition encode_ascii (s : Py.str) : option (list byte) := mapM Byte.of_N s.

(** [base64.b64encode(content).decode('utf-8')]. *)
Definition b64encode_str (bs : list byte) : Py.str :=
  decode_ascii (b64encode bs).

(** [base64.b64decode(data)] for a [str] argument. *)
Definition b64decode_str (s : Py.str) : option (list byte) :=
  cs ← encode_ascii s; b64decode cs.

(** The sixty-four sextet values, and the check run over them: the alphabet
    is injective, avoids the padding character and is ASCII. *)
Definition sextets : list N := map N.of_nat (seq 0 64).

Definition sextet_ok (n : N) : bool :=
  match b64val (b64char n) with
  | Some m => (m =? n)%N && negb (Byte.eqb (b64char n) pad)
                && (Byte.to_N (b64char n) <? 128)%N
  | None => false
  end.

End Base64.

(** ** The host agent *)

Module HostAgent.
Import Py.

(** *** Library types *)

(** [datetime] values (microseconds of the clock) and the text
    [isoformat()] renders them to, kept symbolic. *)
Definition datetime := Z.

Inductive isostr := isoformat (d : datetime).

(** Starlette's [UploadFile]: [content] is what [await file.read()] returns. *)
Record UploadFile := {
  filename : option str;
  content_type : option str;
  content : list byte;
}.

(** [fastapi.HTTPException]. *)
Record HTTPException := {
  status_code : Z;
  detail : str;
}.

(** What an endpoint hands back to FastAPI: the returned body, a raised
    [HTTPException], or the 422 answer FastAPI gives by itself when a
    required parameter is missing (with the names of the missing ones). *)
Inductive http (A : Type) :=
| Returned (body : A)
| HTTPError (e : HTTPException)
| Unprocessable (missing : list str).
Arguments Returned {A} body.
Arguments HTTPError {A} e.
Arguments Unprocessable {A} missing.

(** Values found in the dictionaries the host server returns, by what a
    [str] field of a pydantic model makes of them: [None]; a [str]; a value
    that is not a [str] but that the field accepts and turns into the text
    [text] ([bytes], which are decoded, and with pydantic 1 also a number,
    which is printed); any other object, which the field refuses. *)
Inductive value :=
| VNone
| VStr (s : str)
| VText (text : str)
| VObj.

Definition dict := gmap str value.

(** [d[k]] and [d.get(k)]. *)
Definition subscript (d : dict) (k : str) : result value :=
  match d !! k with
  | Some v => Ok v
  | None => Raise (KeyError k)
  end.

Definition get (d : dict) (k : str) : value :=
  match d !! k with
  | Some v => v
  | None => VNone
  end.

(** *** Types of the server package *)

(** Modelled from the spec: the Attachment descriptor (name, declared MIME
    type, encoded byte payload); the class [FileInfo] is declared in
    server/a2a_client_manager.py. *)
Record FileInfo := {
  name : str;
  mime_type : str;
  data : str;
}.

(** Modelled from the spec: a Message carries a role, its content text and a
    timestamp; the endpoints read it as [message["content"]]. *)
Record Message := {
  role : str;
  msg_content : str;
  msg_timestamp : datetime;
}.

(** Modelled from the spec: ChatHistory is the ordered sequence of Messages
    of one session with a creation and a last-updated timestamp; the class is
    declared in server/a2a_client_manager.py.  An instance is truthy. *)
Record ChatHistory := {
  messages : list Message;
  created_at : datetime;
  last_updated : datetime;
}.

(** Modelled from the spec: [recent(sessionId, limit)] returns the last
    [limit] messages in insertion order; [limit <= 0] yields empty; no upper
    bound is enforced beyond the full history length.  The method
    [ChatHistory.get_recent_messages] is declared in
    server/a2a_client_manager.py. *)
Definition get_recent_messages (h : ChatHistory) (limit : Z) : list Message :=
  if (limit <=? 0)%Z then []
  else drop (length (messages h) - Z.to_nat limit) (messages h).

(** [a2a_client_manager.chat_histories]: a dictionary from session
    identifier to history.  [items()] runs in insertion order, so the
    dictionary is kept as the list of its items. *)
Definition histories := list (str * ChatHistory).

Fixpoint lookup_history (hs : histories) (k : str) : option ChatHistory :=
  match hs with
  | [] => None
  | (k', h) :: r => if decide (k = k') then Some h else lookup_history r k
  end.

(** Modelled from the spec: [ensureHistory(sessionId)] returns the existing
    history or creates an empty one; idempotent; never fails.  The method
    [_ensure_chat_history] is declared in server/a2a_client_manager.py;
    [now] is the clock reading a new history is stamped with. *)
Definition _ensure_chat_history (hs : histories) (now : datetime) (k : str)
  : histories * ChatHistory :=
  match lookup_history hs k with
  | Some h => (hs, h)
  | None =>
      let h := {| messages := []; created_at := now; last_updated := now |} in
      (hs ++ [(k, h)], h)
  end.

(** The two dispatch operations [/chat] may ask of the host server. *)
Inductive dispatch :=
| process_message (message : str) (user_id : option str) (session_id : str)
| process_message_with_files
    (message : str) (user_id : option str) (session_id : str)
    (files : list FileInfo).

(** The session identifier and the attachments a dispatch carries. *)
Definition session_of (c : dispatch) : str :=
  match c with
  | process_message _ _ s => s
  | process_message_with_files _ _ s _ => s
  end.

Definition attachments_of (c : dispatch) : list FileInfo :=
  match c with
  | process_message _ _ _ => []
  | process_message_with_files _ _ _ infos => infos
  end.

(** The host server, as the endpoints use it: its package
    (server/host_server.py) is outside this file, so each operation is a
    function of its arguments that returns or raises. *)
Record HostServer := {
  run : dispatch -> result dict;
  get_chat_history_of : str -> str -> result (option ChatHistory);
  get_chat_history_fallback : str -> result (option ChatHistory);
  get_sessions_of : str -> result (list str);
}.

(** *** Response models *)

Record ChatResponse := {
  cr_response : str;
  cr_agent_used : option str;
  cr_session_id : option str;
  cr_clarified_message : option str;
  cr_analysis : option str;
  cr_data : option str;
  cr_status : str;
  cr_timestamp : isostr;
}.

(** Pydantic's check of a [str] field and of an [Optional[str]] field. *)
Definition as_str (v : value) : option str :=
  match v with
  | VStr s => Some s
  | VText text => Some text
  | VNone => None
  | VObj => None
  end.

Definition as_optional_str (v : value) : option (option str) :=
  match v with
  | VNone => Some None
  | VStr s => Some (Some s)
  | VText text => Some (Some text)
  | VObj => None
  end.

Definition at_fault {A} (field : string) (checked : option A) : list str :=
  match checked with Some _ => [] | None => [lit field] end.

(** [ChatResponse(response=..., ..., status=..., timestamp=...)]: every field
    is checked, and the fields at fault are reported together. *)
Definition new_ChatResponse
    (response agent_used session_id clarified_message analysis data : value)
    (status : str) (timestamp : isostr) : result ChatResponse :=
  match as_str response, as_optional_str agent_used,
        as_optional_str session_id, as_optional_str clarified_message,
        as_optional_str analysis, as_optional_str data with
  | Some r, Some a, Some s, Some c, Some n, Some d =>
      Ok {| cr_response := r; cr_agent_used := a; cr_session_id := s;
            cr_clarified_message := c; cr_analysis := n; cr_data := d;
            cr_status := status; cr_timestamp := timestamp |}
  | r, a, s, c, n, d =>
      Raise (ValidationError (lit "ChatResponse")
               (at_fault "response" r ++ at_fault "agent_used" a
                  ++ at_fault "session_id" s
                  ++ at_fault "clarified_message" c
                  ++ at_fault "analysis" n ++ at_fault "data" d))
  end.

(** *** POST /chat *)

(** The body of [if file.filename:] in the loop over the uploads: the
    content is read and base64-encoded, the MIME type defaults to the generic
    binary type.  An upload whose filename is falsy is passed over. *)
Definition normalize (file : UploadFile) : option FileInfo :=
  match filename file with
  | Some n =>
      if truthy_str n then
        let file_content := content file in
        let file_base64 := Base64.b64encode_str file_content in
        let mime_type :=
          or_default (content_type file) (lit "application/octet-stream") in
        Some {| name := n; mime_type := mime_type; data := file_base64 |}
      else None
  | None => None
  end.

(** [processed_files]: [None] unless some upload has a filename, else the
    list the loop appends to. *)
Definition process_files (files : option (list UploadFile))
  : option (list FileInfo) :=
  match files with
  | Some fs =>
      if truthy_list fs && existsb (fun file => truthy (filename file)) fs
      then Some (fold_left
                   (fun processed file =>
                      match normalize file with
                      | Some info => processed ++ [info]
                      | None => processed
                      end) fs [])
      else None
  | None => None
  end.

(** [except Exception as e: raise HTTPException(status_code=500, ...)], with
    the text put before [str(e)]. *)
Definition guard {A} (prefix : str) (m : result A) : http A :=
  match m with
  | Ok a => Returned a
  | Raise e =>
      HTTPError {| status_code := 500; detail := prefix ++ str_exn e |}
  end.

(** The handler [chat].  [uuid4] is the text [str(uuid4())] evaluates to if
    the handler draws an identifier, [now] the clock reading for the
    timestamp.  The result pairs the dispatches asked of the host server, in
    order, with what the handler hands back. *)
Definition chat (host_server : HostServer) (now : datetime) (uuid4 : str)
    (message : str) (user_id session_id : option str)
    (files : option (list UploadFile)) : list dispatch * http ChatResponse :=
  let session_id :=
    match session_id with
    | Some s => if truthy_str s then s else uuid4
    | None => uuid4
    end in
  let processed_files := process_files files in
  let call :=
    match processed_files with
    | Some ((_ :: _) as infos) =>
        process_message_with_files message user_id session_id infos
    | _ => process_message message user_id session_id
    end in
  ([call],
   guard (lit "Lỗi khi xử lý message: ")
     (let* result := run host_server call in
      let* response := subscript result (lit "response") in
      new_ChatResponse response
        (get result (lit "agent_used")) (get result (lit "session_id"))
        (get result (lit "clarified_message")) (get result (lit "analysis"))
        (get result (lit "data")) (lit "success") (isoformat now))).

(** The form of a POST /chat request as FastAPI receives it. *)
Record ChatForm := {
  form_message : option str;
  form_user_id : option str;
  form_session_id : option str;
  form_files : option (list UploadFile);
}.

(** FastAPI reads a form value that is absent or empty as missing. *)
Definition form_field (v : option str) : option str :=
  match v with
  | Some s => if truthy_str s then Some s else None
  | None => None
  end.

Definition file_field (v : option (list UploadFile))
  : option (list UploadFile) :=
  match v with
  | Some fs => if truthy_list fs then Some fs else None
  | None => None
  end.

(** The route [@app.post("/chat")] with the signature of [chat]:
    [message: str = Form(...)] is required, so a missing value is answered
    with 422 and the handler is not called; [user_id], [session_id]
    ([Form(None)]) and [files] ([File(None)]) default to [None]. *)
Definition post_chat (host_server : HostServer) (now : datetime) (uuid4 : str)
    (form : ChatForm) : list dispatch * http ChatResponse :=
  match form_field (form_message form) with
  | None => ([], Unprocessable [lit "message"])
  | Some message =>
      chat host_server now uuid4 message (form_field (form_user_id form))
        (form_field (form_session_id form)) (file_field (form_files form))
  end.

(** *** GET /sessions/{session_id}/history *)

(** The dictionary the endpoint returns; the keys present in one branch only
    are optional. *)
Record HistoryResponse := {
  hr_status : str;
  hr_session_id : str;
  hr_user_id : option str;
  hr_messages : list Message;
  hr_message : option str;
  hr_created_at : option isostr;
  hr_last_updated : option isostr;
  hr_total_messages : option nat;
}.

(** The lookup the endpoint makes: by user when [user_id] is truthy, else the
    fallback by session alone. *)
Definition stored_history (host_server : HostServer) (session_id : str)
    (user_id : option str) : result (option ChatHistory) :=
  match user_id with
  | Some u =>
      if truthy_str u then get_chat_history_of host_server u session_id
      else get_chat_history_fallback host_server session_id
  | None => get_chat_history_fallback host_server session_id
  end.

Definition get_chat_history (host_server : HostServer) (session_id : str)
    (user_id : option str) : http HistoryResponse :=
  guard []
    (let* chat_history := stored_history host_server session_id user_id in
     match chat_history with
     | None =>
         Ok {| hr_status := lit "success";
               hr_session_id := session_id;
               hr_user_id := user_id;
               hr_messages := [];
               hr_message := Some (lit "Không có lịch sử chat cho session này");
               hr_created_at := None;
               hr_last_updated := None;
               hr_total_messages := None |}
     | Some h =>
         Ok {| hr_status := lit "success";
               hr_session_id := session_id;
               hr_user_id := user_id;
               hr_messages := get_recent_messages h 50;
               hr_message := None;
               hr_created_at := Some (isoformat (created_at h));
               hr_last_updated := Some (isoformat (last_updated h));
               hr_total_messages := Some (length (messages h)) |}
     end).

(** *** POST /sessions/create *)

Record CreateSessionResponse := {
  cs_status : str;
  cs_session_id : str;
  cs_message : str;
  cs_timestamp : isostr;
}.

(** [uuid4] is the text [str(uuid4())] evaluates to in this call, [created]
    the clock reading inside [_ensure_chat_history], [now] the one for the
    timestamp.  The histories after the call come with the answer. *)
Definition create_new_session (chat_histories : histories)
    (created now : datetime) (uuid4 : str)
  : histories * http CreateSessionResponse :=
  let new_session_id := uuid4 in
  let '(chat_histories, _) :=
    _ensure_chat_history chat_histories created new_session_id in
  (chat_histories,
   guard []
     (Ok {| cs_status := lit "success";
            cs_session_id := new_session_id;
            cs_message := lit "Session mới đã được tạo thành công";
            cs_timestamp := isoformat now |})).

(** *** GET /sessions and GET /users/{user_id}/sessions *)

Record SessionInfo := {
  si_session_id : str;
  si_created_at : isostr;
  si_last_updated : isostr;
  si_message_count : nat;
  si_last_message_preview : str;
}.

(** [chat_history.messages[-1]["content"][:100] + "..." if
    chat_history.messages else ""]. *)
Definition last_message_preview (chat_history : ChatHistory) : result str :=
  if truthy_list (messages chat_history) then
    match getitem (messages chat_history) (-1) with
    | Some m => Ok (slice_to (msg_content m) 100 ++ lit "...")
    | None => Raise (IndexError (lit "list index out of range"))
    end
  else Ok [].

Definition session_info (session_id : str) (chat_history : ChatHistory)
  : result SessionInfo :=
  let* preview := last_message_preview chat_history in
  Ok {| si_session_id := session_id;
        si_created_at := isoformat (created_at chat_history);
        si_last_updated := isoformat (last_updated chat_history);
        si_message_count := length (messages chat_history);
        si_last_message_preview := preview |}.

Record SessionsResponse := {
  ls_status : str;
  ls_active_sessions : nat;
  ls_sessions : list SessionInfo;
  ls_timestamp : isostr;
}.

Definition list_active_sessions (chat_histories : histories) (now : datetime)
  : http SessionsResponse :=
  guard []
    (let* sessions_info :=
       for_each
         (fun sessions_info '(session_id, chat_history) =>
            let* info := session_info session_id chat_history in
            Ok (sessions_info ++ [info]))
         chat_histories [] in
     Ok {| ls_status := lit "success";
           ls_active_sessions := length sessions_info;
           ls_sessions := sessions_info;
           ls_timestamp := isoformat now |}).

(** An entry of the user's listing: the details of a session, or the marker
    left when they could not be retrieved. *)
Inductive UserSessionEntry :=
| SessionDetails (info : SessionInfo)
| SessionError (session_id : str) (error : str).

Record UserSessionsResponse := {
  us_status : str;
  us_user_id : str;
  us_total_sessions : nat;
  us_sessions : list UserSessionEntry;
  us_timestamp : isostr;
}.

(** One turn of the loop over the user's sessions, with its own
    [try]/[except]: a session without history is left out, a failure leaves
    the error marker. *)
Definition user_session_step (host_server : HostServer) (user_id : str)
    (sessions_info : list UserSessionEntry) (session_id : str)
  : list UserSessionEntry :=
  match
    (let* chat_history := get_chat_history_of host_server user_id session_id in
     match chat_history with
     | Some h =>
         let* info := session_info session_id h in
         Ok (sessions_info ++ [SessionDetails info])
     | None => Ok sessions_info
     end)
  with
  | Ok sessions_info' => sessions_info'
  | Raise _ =>
      sessions_info
        ++ [SessionError session_id (lit "Cannot retrieve details")]
  end.

Definition get_user_sessions (host_server : HostServer) (user_id : str)
    (now : datetime) : http UserSessionsResponse :=
  guard []
    (let* sessions := get_sessions_of host_server user_id in
     let sessions_info :=
       fold_left (user_session_step host_server user_id) sessions [] in
     Ok {| us_status := lit "success";
           us_user_id := user_id;
           us_total_sessions := length sessions_info;
           us_sessions := sessions_info;
           us_timestamp := isoformat now |}).

End HostAgent.

(** ** The preview, as it is described *)

Module Described.
Import Py HostAgent.

(** The preview of the last message: empty for a history without messages,
    else the first hundred characters of the content of the most recent
    message followed by three dots, whatever the length of the content. *)
Definition preview_of (chat_history : ChatHistory) (preview : str) : Prop :=
  (messages chat_history = [] -> preview = [])
  /\ (forall m, last (messages chat_history) = Some m ->
       preview = take 100 (msg_content m) ++ lit "..."
       /\ (length (msg_content m) <= 100 ->
           preview = msg_content m ++ lit "...")).

End Described.

(** ** Sample hosts and requests *)

Module Samples.
Import Py HostAgent.

Definition no_history : str -> str -> result (option ChatHistory) :=
  fun _ _ => Ok None.

(** A host server whose dispatch fails: the agent behind it timed out. *)
Definition timing_out : HostServer :=
  {| run := fun _ => Raise (Exception (lit "agent timed out"));
     get_chat_history_of := no_history;
     get_chat_history_fallback := fun _ => Ok None;
     get_sessions_of := fun _ => Ok [] |}.

(** A host server that answers every dispatch, repeats the session
    identifier it was given and marks the exchange as failed. *)
Definition answer (c : dispatch) : dict :=
  list_to_map
    [(lit "response", VStr (lit "agent unavailable"));
     (lit "session_id", VStr (session_of c));
     (lit "status", VStr (lit "error"))].

Definition answering : HostServer :=
  {| run := fun c => Ok (answer c);
     get_chat_history_of := no_history;
     get_chat_history_fallback := fun _ => Ok None;
     get_sessions_of := fun _ => Ok [] |}.

Definition hello : str := lit "hello".
Definition drawn : str := lit "6f1c2a54-0d3e-4b7a-9c11-52a7d0e4b8f3".
Definition drawn' : str := lit "b2a9e7c0-41d5-4e0f-8a63-0c9f1d2e7a45".

(** An upload with a name and no bytes, one with bytes and no name. *)
Definition empty_named : UploadFile :=
  {| filename := Some (lit "empty.txt");
     content_type := None;
     content := [] |}.

Definition nameless : UploadFile :=
  {| filename := Some [];
     content_type := Some (lit "image/png");
     content := ["137"%byte; "P"%byte; "N"%byte; "G"%byte] |}.

Definition photo : UploadFile :=
  {| filename := Some (lit "photo.png");
     content_type := Some (lit "image/png");
     content := ["137"%byte; "P"%byte; "N"%byte; "G"%byte] |}.

Definition said (text : string) : Message :=
  {| role := lit "user"; msg_content := lit text; msg_timestamp := 0%Z |}.

Definition two_turns : ChatHistory :=
  {| messages := [said "xin chào"; said "gọng kính nào hợp mặt tròn?"];
     created_at := 10%Z;
     last_updated := 20%Z |}.

(** A host server with one user whose two sessions are one with history and
    one whose retrieval fails. *)
Definition one_user : HostServer :=
  {| run := fun _ => Raise (Exception (lit "agent timed out"));
     get_chat_history_of := fun _ session_id =>
       if decide (session_id = lit "s1") then Ok (Some two_turns)
       else Raise (Exception (lit "store unavailable"));
     get_chat_history_fallback := fun _ => Ok None;
     get_sessions_of := fun _ => Ok [lit "s1"; lit "s2"] |}.

End Samples.

(** ** [uuid.uuid4] *)

Module Uuid.
Import Py.

(** [UUID(bytes=os.urandom(16), version=4)]: [random] is the integer the
    sixteen random bytes stand for; the variant and the version are forced
    into it. *)
Definition variant_mask : N := N.shiftl 0xc000 48.
Definition variant_bits : N := N.shiftl 0x8000 48.
Definition version_mask : N := N.shiftl 0xf000 64.
Definition version_bits : N := N.shiftl 4 76.

Definition uuid4_int (random : N) : N :=
  N.lor
    (N.ldiff (N.lor (N.ldiff random variant_mask) variant_bits) version_mask)
    version_bits.

(** ['%032x' % int] for an integer below [2 ^ 128]: thirty-two hexadecimal
    digits, the most significant first. *)
Fixpoint hex_digits (width : nat) (n : N) : str :=
  match width with
  | O => []
  | S w => hex_digits w (n / 16) ++ [hex_digit (n mod 16)]
  end.

Definition dash : char := 45%N.

(** [str(uuid)]: the digits in groups of 8, 4, 4, 4 and 12. *)
Definition str_uuid (int : N) : str :=
  let hex := hex_digits 32 int in
  take 8 hex ++ dash :: take 4 (drop 8 hex) ++ dash :: take 4 (drop 12 hex)
    ++ dash :: take 4 (drop 16 hex) ++ dash :: drop 20 hex.

(** [str(uuid4())], given the random bytes. *)
Definition uuid4 (random : N) : str := str_uuid (uuid4_int random).





End Uuid.

(** ** The remaining endpoints *)

Module Operations.
Import Py HostAgent.

(** The message and the user a dispatch carries. *)
Definition message_of (c : dispatch) : str :=
  match c with
  | process_message m _ _ => m
  | process_message_with_files m _ _ _ => m
  end.

Definition user_of (c : dispatch) : option str :=
  match c with
  | process_message _ u _ => u
  | process_message_with_files _ u _ _ => u
  end.

(** The uploads of a request: none when [files] is [None]. *)
Definition uploads (files : option (list UploadFile)) : list UploadFile :=
  match files with Some fs => fs | None => [] end.

(** Whether the lookup of a session's history leaves an entry in the user's
    listing: it does unless the lookup returns no history. *)
Definition leaves_entry (host_server : HostServer) (user_id session_id : str)
  : bool :=
  match get_chat_history_of host_server user_id session_id with
  | Ok None => false
  | _ => true
  end.

(** *** GET / and GET /health *)

Record HealthResponse := {
  h_status : str;
  h_message : str;
  h_timestamp : isostr;
}.

Definition root (now : datetime) : http HealthResponse :=
  Returned {| h_status := lit "healthy";
              h_message := lit "Host Agent Server đang hoạt động tốt!";
              h_timestamp := isoformat now |}.

(** [check_agents_health] is the outcome of
    [await host_server.check_agents_health()], [render] the text the f-string
    puts for its value. *)
Definition health {Status : Type} (render : Status -> str)
    (check_agents_health : result Status) (now : datetime)
  : http HealthResponse :=
  guard (lit "Health check failed: ")
    (let* agent_status := check_agents_health in
     Ok {| h_status := lit "healthy";
           h_message :=
             lit "Tất cả services hoạt động tốt. Agents: "
               ++ render agent_status;
           h_timestamp := isoformat now |}).

(** *** GET /agents/status *)

Record AgentsStatusResponse (Status : Type) := {
  ag_status : str;
  ag_agents : Status;
  ag_timestamp : isostr;
}.
Arguments ag_status {Status} _.
Arguments ag_agents {Status} _.
Arguments ag_timestamp {Status} _.

Definition get_agents_status {Status : Type}
    (get_all_agents_status : result Status) (now : datetime)
  : http (AgentsStatusResponse Status) :=
  guard []
    (let* status := get_all_agents_status in
     Ok {| ag_status := lit "success";
           ag_agents := status;
           ag_timestamp := isoformat now |}).

(** *** DELETE /sessions/{session_id}/history *)

(** The two clearing operations the endpoint may ask of the host server. *)
Inductive clearing :=
| clear_chat_history_of (user_id session_id : str)
| clear_chat_history_fallback (session_id : str).

Record ClearResponse := {
  cl_status : str;
  cl_session_id : str;
  cl_user_id : option str;
  cl_message : str;
  cl_timestamp : isostr;
}.

(** [clear] is the host server's answer to a clearing.  The result pairs the
    clearings asked, in order, with what the endpoint hands back. *)
Definition clear_chat_history (clear : clearing -> result unit)
    (now : datetime) (session_id : str) (user_id : option str)
  : list clearing * http ClearResponse :=
  let request :=
    match user_id with
    | Some u =>
        if truthy_str u then clear_chat_history_of u session_id
        else clear_chat_history_fallback session_id
    | None => clear_chat_history_fallback session_id
    end in
  ([request],
   guard []
     (let* _ := clear request in
      Ok {| cl_status := lit "success";
            cl_session_id := session_id;
            cl_user_id := user_id;
            cl_message := lit "Đã xóa lịch sử chat thành công";
            cl_timestamp := isoformat now |})).

End Operations.

(** ** More sample data *)

Module MoreSamples.
Import Py HostAgent Operations.

(** A host server whose answer lacks the response. *)
Definition mute_answer (c : dispatch) : dict :=
  list_to_map [(lit "session_id", VStr (session_of c))].

Definition mute : HostServer :=
  {| run := fun c => Ok (mute_answer c);
     get_chat_history_of := Samples.no_history;
     get_chat_history_fallback := fun _ =>
       Raise (Exception (lit "store unavailable"));
     get_sessions_of := fun _ =>
       Raise (Exception (lit "store unavailable")) |}.

Definition one_session : histories := [(lit "s1", Samples.two_turns)].



(** A store of clearings that refuses the fallback. *)
Definition refusing (request : clearing) : result unit :=
  match request with
  | clear_chat_history_of _ _ => Ok tt
  | clear_chat_history_fallback _ => Raise (Exception (lit "no such store"))
  end.

End MoreSamples.

(** * Facts *)

(** ** Base64 *)

Module Base64Facts.
Import Base64.

Lemma sextets_complete (n : N) : (n < 64)%N -> In n sextets.
Proof.
  intros Hn. unfold sextets.
  rewrite <- (N2Nat.id n). apply in_map, in_seq. lia.
Qed.

Lemma sextets_ok : forallb sextet_ok sextets = true.
Proof. vm_compute. reflexivity. Qed.

Lemma sextet_ok_spec (n : N) :
  (n < 64)%N ->
  b64val (b64char n) = Some n
  /\ Byte.eqb (b64char n) pad = false
  /\ (Byte.to_N (b64char n) < 128)%N.
Proof.
  intros Hn.
  pose proof (proj1 (forallb_forall _ _) sextets_ok n (sextets_complete n Hn))
    as H.
  unfold sextet_ok in H.
  destruct (b64val (b64char n)) as [m|]; [|discriminate].
  apply andb_prop in H as [H H3]. apply andb_prop in H as [H1 H2].
  apply N.eqb_eq in H1. apply N.ltb_lt in H3.
  apply negb_true_iff in H2. subst m. auto.
Qed.

Lemma b64val_char (n : N) : (n < 64)%N -> b64val (b64char n) = Some n.
Proof. intros Hn. apply (sextet_ok_spec n Hn). Qed.

Lemma b64char_not_pad (n : N) :
  (n < 64)%N -> Byte.eqb (b64char n) pad = false.
Proof. intros Hn. apply (sextet_ok_spec n Hn). Qed.

Lemma pad_eqb : Byte.eqb pad pad = true.
Proof. reflexivity. Qed.

Ltac euclid_step a b :=
  let q := fresh "q" in let r := fresh "r" in
  let Hq := fresh "Hq" in let Hr := fresh "Hr" in
  pose proof (N.div_mod a b ltac:(lia)) as Hq;
  pose proof (N.mod_lt a b ltac:(lia)) as Hr;
  set (q := (a / b)%N) in *; set (r := (a mod b)%N) in *;
  clearbody q r.

Ltac euclid :=
  repeat match goal with
  | |- context [(?a / ?b)%N] => euclid_step a b
  | |- context [(?a mod ?b)%N] => euclid_step a b
  | _ : context [(?a / ?b)%N] |- _ => euclid_step a b
  | _ : context [(?a mod ?b)%N] |- _ => euclid_step a b
  end.

Lemma first_byte (n0 n1 : N) :
  (n0 <= 255 -> n1 <= 255 ->
   n0 / 4 * 4 + (n0 mod 4 * 16 + n1 / 16) / 16 = n0)%N.
Proof. intros; euclid; lia. Qed.

Lemma first_byte_alone (n0 : N) :
  (n0 <= 255 -> n0 / 4 * 4 + (n0 mod 4 * 16) / 16 = n0)%N.
Proof. intros; euclid; lia. Qed.

Lemma second_byte (n0 n1 n2 : N) :
  (n1 <= 255 -> n2 <= 255 ->
   (n0 mod 4 * 16 + n1 / 16) mod 16 * 16
     + (n1 mod 16 * 4 + n2 / 64) / 4 = n1)%N.
Proof. intros; euclid; lia. Qed.

Lemma second_byte_last (n0 n1 : N) :
  (n1 <= 255 ->
   (n0 mod 4 * 16 + n1 / 16) mod 16 * 16 + (n1 mod 16 * 4) / 4 = n1)%N.
Proof. intros; euclid; lia. Qed.

Lemma third_byte (n1 n2 : N) :
  (n2 <= 255 -> (n1 mod 16 * 4 + n2 / 64) mod 4 * 64 + n2 mod 64 = n2)%N.
Proof. intros; euclid; lia. Qed.

Lemma sextet_a (n0 : N) : (n0 <= 255 -> n0 / 4 < 64)%N.
Proof. intros; euclid; lia. Qed.

Lemma sextet_b (n0 n1 : N) :
  (n1 <= 255 -> n0 mod 4 * 16 + n1 / 16 < 64)%N.
Proof. intros; euclid; lia. Qed.

Lemma sextet_b_alone (n0 : N) : (n0 mod 4 * 16 < 64)%N.
Proof. euclid; lia. Qed.

Lemma sextet_c (n1 n2 : N) :
  (n2 <= 255 -> n1 mod 16 * 4 + n2 / 64 < 64)%N.
Proof. intros; euclid; lia. Qed.

Lemma sextet_c_last (n1 : N) : (n1 mod 16 * 4 < 64)%N.
Proof. euclid; lia. Qed.

Lemma sextet_d (n2 : N) : (n2 mod 64 < 64)%N.
Proof. euclid; lia. Qed.

Create HintDb sextet.

#[local] Hint Resolve sextet_a sextet_b sextet_b_alone sextet_c sextet_c_last
  sextet_d Byte.to_N_bounded : sextet.

Lemma list_ind3 {A} (P : list A -> Prop) :
  P [] -> (forall a, P [a]) -> (forall a b, P [a; b]) ->
  (forall a b c l, P l -> P (a :: b :: c :: l)) ->
  forall l, P l.
Proof.
  intros H0 H1 H2 H3 l.
  enough (P l /\ (forall a, P (a :: l)) /\ (forall a b, P (a :: b :: l)))
    as [H _] by exact H.
  induction l as [|x l (IH0 & IH1 & IH2)]; repeat split; auto.
Qed.

Ltac known_sextets :=
  rewrite ?b64char_not_pad by auto with sextet;
  rewrite ?b64val_char by auto with sextet;
  cbn [mbind option_bind].

Lemma group1 (b0 : byte) :
  b64decode (b64encode [b0]) = Some [b0].
Proof.
  cbn [b64encode b64decode]. rewrite pad_eqb. known_sextets.
  rewrite first_byte_alone, Byte.of_to_N by auto with sextet.
  reflexivity.
Qed.

Lemma group2 (b0 b1 : byte) :
  b64decode (b64encode [b0; b1]) = Some [b0; b1].
Proof.
  cbn [b64encode b64decode]. rewrite pad_eqb. known_sextets.
  rewrite first_byte, Byte.of_to_N by auto with sextet.
  cbn [mbind option_bind]. known_sextets.
  rewrite second_byte_last, Byte.of_to_N by auto with sextet.
  reflexivity.
Qed.

Lemma group3 (b0 b1 b2 : byte) (rest : list byte) :
  b64decode (b64encode (b0 :: b1 :: b2 :: rest))
  = tl ← b64decode (b64encode rest); Some (b0 :: b1 :: b2 :: tl).
Proof.
  cbn [b64encode b64decode]. known_sextets.
  rewrite first_byte, Byte.of_to_N by auto with sextet.
  cbn [mbind option_bind].
  rewrite second_byte, Byte.of_to_N by auto with sextet.
  cbn [mbind option_bind].
  rewrite third_byte, Byte.of_to_N by auto with sextet.
  reflexivity.
Qed.

Lemma b64decode_encode (bs : list byte) :
  b64decode (b64encode bs) = Some bs.
Proof.
  induction bs as [| b0 | b0 b1 | b0 b1 b2 rest IH] using list_ind3.
  - reflexivity.
  - apply group1.
  - apply group2.
  - rewrite group3, IH. reflexivity.
Qed.

Lemma b64encode_ascii (bs : list byte) :
  Forall (fun c => (Byte.to_N c < 128)%N) (b64encode bs).
Proof.
  assert (Hp : (Byte.to_N pad < 128)%N) by (vm_compute; reflexivity).
  assert (Hc : forall n, (n < 64)%N -> (Byte.to_N (b64char n) < 128)%N)
    by (intros n Hn; apply (sextet_ok_spec n Hn)).
  induction bs as [| b0 | b0 b1 | b0 b1 b2 rest IH] using list_ind3;
    cbn [b64encode]; repeat constructor; auto with sextet.
Qed.

Lemma encode_decode_ascii (cs : list byte) :
  encode_ascii (decode_ascii cs) = Some cs.
Proof.
  unfold encode_ascii, decode_ascii.
  induction cs as [|c cs IH]; [reflexivity|].
  cbn [map mapM]. rewrite Byte.of_to_N. cbn [mbind option_bind].
  rewrite IH. reflexivity.
Qed.

Lemma b64decode_encode_str (bs : list byte) :
  b64decode_str (b64encode_str bs) = Some bs.
Proof.
  unfold b64decode_str, b64encode_str.
  rewrite encode_decode_ascii. cbn [mbind option_bind].
  apply b64decode_encode.
Qed.

End Base64Facts.

(** ** Identifiers *)

Module UuidFacts.
Import Py Uuid.












End UuidFacts.

(** ** The host agent *)

Module HostAgentFacts.
Import Py HostAgent.

(** *** Uploads *)

Lemma truthy_str_nonempty (s : str) : truthy_str s = true <-> s <> [].
Proof. destruct s; cbn; split; intros; congruence. Qed.

Lemma normalize_named (file : UploadFile) :
  is_Some (normalize file) <-> truthy (filename file) = true.
Proof.
  unfold normalize, truthy.
  destruct (filename file) as [n|]; [destruct (truthy_str n)|];
    split; intros H; try discriminate; eauto; destruct H; discriminate.
Qed.

Lemma normalize_data (file : UploadFile) (a : FileInfo) :
  normalize file = Some a ->
  data a = Base64.b64encode_str (content file)
  /\ filename file = Some (name a)
  /\ mime_type a
     = or_default (content_type file) (lit "application/octet-stream").
Proof.
  unfold normalize. destruct (filename file) as [n|]; [|discriminate].
  destruct (truthy_str n); [|discriminate].
  intros [= <-]. auto.
Qed.

(** C3: for every byte sequence, filename and MIME type (declared or not),
    the attachment the normalizer builds carries the base64 text of the
    bytes, and decoding that text gives the original bytes back. *)
Theorem attachment_round_trip
    (payload : list byte) (fname : str) (mime : option str) :
  fname <> [] ->
  exists a,
    normalize {| filename := Some fname; content_type := mime;
                 content := payload |} = Some a
    /\ name a = fname
    /\ Base64.b64decode_str (data a) = Some payload.
Proof.
  intros Hname. apply truthy_str_nonempty in Hname.
  unfold normalize. cbn [filename content content_type]. rewrite Hname.
  eexists. split; [reflexivity|]. cbn [name data]. split; [reflexivity|].
  apply Base64Facts.b64decode_encode_str.
Qed.

Lemma attachment_round_trip_witness :
  lit "photo.png" <> []
  /\ exists a,
       normalize Samples.photo = Some a
       /\ name a = lit "photo.png"
       /\ Base64.b64decode_str (data a) = Some (content Samples.photo).
Proof.
  assert (H : lit "photo.png" <> []) by discriminate.
  split; [exact H|].
  exact (attachment_round_trip (content Samples.photo) (lit "photo.png")
           (Some (lit "image/png")) H).
Defined.

(** C6: every upload with a filename is normalized, and the MIME type of its
    attachment is application/octet-stream when the content type of the
    upload is unspecified (absent or empty), and the declared content type,
    unchanged, when one is declared. *)
Theorem mime_type_defaults (file : UploadFile) (n : str) :
  filename file = Some n -> n <> [] ->
  exists a,
    normalize file = Some a
    /\ (truthy (content_type file) = false ->
        mime_type a = lit "application/octet-stream")
    /\ (forall c, content_type file = Some c -> c <> [] -> mime_type a = c).
Proof.
  intros Hf Hn. apply truthy_str_nonempty in Hn.
  unfold normalize. rewrite Hf, Hn. eexists. split; [reflexivity|].
  cbn [mime_type]. split.
  - unfold truthy, or_default.
    destruct (content_type file) as [c|]; [|reflexivity].
    intros ->. reflexivity.
  - intros c -> Hc. apply truthy_str_nonempty in Hc.
    unfold or_default. rewrite Hc. reflexivity.
Qed.

Lemma mime_type_defaults_witness :
  (exists a,
     normalize Samples.empty_named = Some a
     /\ mime_type a = lit "application/octet-stream")
  /\ (exists a,
        normalize Samples.photo = Some a
        /\ mime_type a = lit "image/png").
Proof.
  assert (Hn1 : lit "empty.txt" <> []) by discriminate.
  assert (Hn2 : lit "photo.png" <> []) by discriminate.
  assert (Hc : lit "image/png" <> []) by discriminate.
  split.
  - destruct (mime_type_defaults Samples.empty_named (lit "empty.txt")
                eq_refl Hn1) as (a & Ha & Hdefault & _).
    exists a. split; [exact Ha | exact (Hdefault eq_refl)].
  - destruct (mime_type_defaults Samples.photo (lit "photo.png")
                eq_refl Hn2) as (a & Ha & _ & Hdeclared).
    exists a. split; [exact Ha | exact (Hdeclared _ eq_refl Hc)].
Defined.

Lemma loop_appends (fs : list UploadFile) (acc : list FileInfo) :
  fold_left
    (fun processed file =>
       match normalize file with
       | Some info => processed ++ [info]
       | None => processed
       end) fs acc
  = acc ++ omap normalize fs.
Proof.
  revert acc. induction fs as [|f fs IH]; intros acc; cbn [fold_left omap].
  - rewrite app_nil_r. reflexivity.
  - rewrite IH. cbn [list_omap].
    destruct (normalize f) as [a|]; [|reflexivity].
    rewrite <- app_assoc. reflexivity.
Qed.

Lemma any_filename (fs : list UploadFile) :
  existsb (fun file => truthy (filename file)) fs = false
  <-> omap normalize fs = [].
Proof.
  induction fs as [|f fs IH]; cbn [existsb omap list_omap]; [tauto|].
  pose proof (normalize_named f) as Hn.
  destruct (normalize f) as [a|], (truthy (filename f)); cbn [orb].
  - split; discriminate.
  - destruct Hn as [Hn _]. specialize (Hn (ex_intro _ a eq_refl)).
    discriminate.
  - destruct Hn as [_ Hn]. destruct (Hn eq_refl). discriminate.
  - exact IH.
Qed.

Lemma process_files_spec (fs : list UploadFile) :
  process_files (Some fs)
  = match omap normalize fs with
    | [] => None
    | infos => Some infos
    end.
Proof.
  unfold process_files. rewrite loop_appends, app_nil_l.
  pose proof (any_filename fs) as Hany.
  destruct (existsb _ fs).
  - rewrite andb_true_r.
    destruct (omap normalize fs) as [|a l] eqn:E.
    + destruct Hany as [_ Hany]. specialize (Hany eq_refl). discriminate.
    + destruct fs; [discriminate E|]. reflexivity.
  - rewrite andb_false_r. rewrite (proj1 Hany eq_refl). reflexivity.
Qed.

(** C4, as the code has it: normalization never fails; an upload is passed
    over exactly when its filename is empty or absent, whatever bytes it
    carries, and every upload with a filename, a zero-byte one included,
    becomes an attachment of the dispatch, in the order of the uploads. *)
Theorem named_uploads_are_forwarded
    (host_server : HostServer) (now : datetime) (uuid4 message : str)
    (user_id session_id : option str) (fs : list UploadFile) :
  (forall f, normalize f = None <-> truthy (filename f) = false)
  /\ (exists c,
        fst (chat host_server now uuid4 message user_id session_id (Some fs))
        = [c]
        /\ attachments_of c = omap normalize fs)
  /\ (forall f, f ∈ fs -> truthy (filename f) = true ->
      exists a c,
        normalize f = Some a
        /\ fst (chat host_server now uuid4 message user_id session_id
                  (Some fs))
           = [c]
        /\ a ∈ attachments_of c).
Proof.
  assert (Hc : exists c,
             fst (chat host_server now uuid4 message user_id session_id
                    (Some fs)) = [c]
             /\ attachments_of c = omap normalize fs).
  { unfold chat. cbn [fst]. rewrite process_files_spec.
    destruct (omap normalize fs) as [|a l]; eexists; split; reflexivity. }
  split; [|split].
  - intros f. pose proof (normalize_named f) as Hn.
    destruct (normalize f) as [a|], (truthy (filename f));
      split; intros H; try discriminate; try reflexivity.
    + destruct Hn as [Hn _]. specialize (Hn (ex_intro _ a eq_refl)).
      discriminate.
    + destruct Hn as [_ Hn]. destruct (Hn eq_refl). discriminate.
  - exact Hc.
  - intros f Hin Hnamed. apply normalize_named in Hnamed as [a Ha].
    destruct Hc as (c & Hc & Hatt). exists a, c.
    split; [exact Ha|]. split; [exact Hc|].
    rewrite Hatt. apply list_elem_of_omap. eauto.
Qed.

Lemma named_uploads_are_forwarded_witness :
  exists a c,
    normalize Samples.empty_named = Some a
    /\ fst (chat Samples.answering 0%Z Samples.drawn Samples.hello None None
              (Some [Samples.nameless; Samples.empty_named]))
       = [c]
    /\ a ∈ attachments_of c.
Proof.
  refine (proj2 (proj2 (named_uploads_are_forwarded Samples.answering 0%Z
                          Samples.drawn Samples.hello None None
                          [Samples.nameless; Samples.empty_named]))
            Samples.empty_named _ eq_refl).
  apply list_elem_of_further, list_elem_of_here.
Defined.

(** C4, as stated, fails: an upload that carries bytes but no filename is
    not normalized, and the request goes out without attachment. *)
Lemma nameless_upload_is_dropped :
  length (content Samples.nameless) = 4
  /\ normalize Samples.nameless = None
  /\ fst (chat Samples.answering 0%Z Samples.drawn Samples.hello None None
            (Some [Samples.nameless]))
     = [process_message Samples.hello None Samples.drawn].
Proof. vm_compute. auto. Qed.

(** *** POST /chat *)

Lemma new_ChatResponse_fields
    (response agent_used session_id clarified_message analysis data : value)
    (status : str) (timestamp : isostr) (r : ChatResponse) :
  new_ChatResponse response agent_used session_id clarified_message analysis
    data status timestamp = Ok r ->
  cr_status r = status
  /\ as_str response = Some (cr_response r)
  /\ as_optional_str session_id = Some (cr_session_id r).
Proof.
  unfold new_ChatResponse.
  destruct (as_str response), (as_optional_str agent_used),
    (as_optional_str session_id), (as_optional_str clarified_message),
    (as_optional_str analysis), (as_optional_str data);
    intros [= <-]; auto.
Qed.

Lemma chat_dispatches_once
    (host_server : HostServer) (now : datetime) (uuid4 message : str)
    (user_id session_id : option str) (files : option (list UploadFile)) :
  exists c,
    fst (chat host_server now uuid4 message user_id session_id files) = [c]
    /\ session_of c
       = match session_id with
         | Some s => if truthy_str s then s else uuid4
         | None => uuid4
         end.
Proof.
  unfold chat. cbn [fst].
  destruct (process_files files) as [[|a l]|]; eexists; split; reflexivity.
Qed.

Lemma chat_outcome
    (host_server : HostServer) (now : datetime) (uuid4 message : str)
    (user_id session_id : option str) (files : option (list UploadFile))
    (c : dispatch) :
  fst (chat host_server now uuid4 message user_id session_id files) = [c] ->
  snd (chat host_server now uuid4 message user_id session_id files)
  = guard (lit "Lỗi khi xử lý message: ")
      (let* result := run host_server c in
       let* response := subscript result (lit "response") in
       new_ChatResponse response
         (get result (lit "agent_used")) (get result (lit "session_id"))
         (get result (lit "clarified_message")) (get result (lit "analysis"))
         (get result (lit "data")) (lit "success") (isoformat now)).
Proof.
  unfold chat. cbn [fst snd]. intros [= <-]. reflexivity.
Qed.

(** C1, as the code has it: a failure raised by the host server while it
    processes the message is caught by [/chat] and raised again to the caller
    as an HTTPException with status code 500, whose detail is the fixed
    prefix followed by the text of the failure; and every ChatResponse that
    [/chat] returns carries the status success. *)
Theorem chat_failure_is_http_500
    (host_server : HostServer) (now : datetime) (uuid4 message : str)
    (user_id session_id : option str) (files : option (list UploadFile)) :
  (forall c e,
     fst (chat host_server now uuid4 message user_id session_id files) = [c] ->
     run host_server c = Raise e ->
     snd (chat host_server now uuid4 message user_id session_id files)
     = HTTPError {| status_code := 500;
                    detail := lit "Lỗi khi xử lý message: " ++ str_exn e |})
  /\ (forall r,
        snd (chat host_server now uuid4 message user_id session_id files)
        = Returned r ->
        cr_status r = lit "success").
Proof.
  split.
  - intros c e Hc He. rewrite (chat_outcome _ _ _ _ _ _ _ c Hc), He.
    reflexivity.
  - intros r.
    destruct (chat_dispatches_once host_server now uuid4 message user_id
                session_id files) as (c & Hc & _).
    rewrite (chat_outcome _ _ _ _ _ _ _ c Hc).
    destruct (run host_server c) as [result|e]; [|discriminate].
    cbn [bind]. destruct (subscript result _) as [response|e];
      [|discriminate].
    cbn [bind].
    destruct (new_ChatResponse _ _ _ _ _ _ _ _) as [r'|e] eqn:E;
      [|discriminate].
    intros [= <-]. apply (new_ChatResponse_fields _ _ _ _ _ _ _ _ _ E).
Qed.

Lemma chat_failure_is_http_500_witness :
  snd (chat Samples.timing_out 0%Z Samples.drawn Samples.hello None None None)
  = HTTPError {| status_code := 500;
                 detail := lit "Lỗi khi xử lý message: agent timed out" |}.
Proof.
  exact (proj1 (chat_failure_is_http_500 Samples.timing_out 0%Z Samples.drawn
                  Samples.hello None None None)
           (process_message Samples.hello None Samples.drawn)
           (Exception (lit "agent timed out")) eq_refl eq_refl).
Defined.

(** C1, as stated, fails: when the dispatch raises, [/chat] hands back no
    result at all but raises; and when the host server answers with a result
    marked as failed, the ChatResponse still says success. *)
Lemma agent_failure_is_raised :
  run Samples.timing_out (process_message Samples.hello None Samples.drawn)
  = Raise (Exception (lit "agent timed out"))
  /\ (forall r,
        snd (chat Samples.timing_out 0%Z Samples.drawn Samples.hello None None
               None) <> Returned r)
  /\ (exists r,
        snd (chat Samples.answering 0%Z Samples.drawn Samples.hello None None
               None) = Returned r
        /\ get (Samples.answer
                  (process_message Samples.hello None Samples.drawn))
             (lit "status")
           = VStr (lit "error")
        /\ cr_status r = lit "success").
Proof.
  split; [reflexivity|]. split.
  - intros r. vm_compute. discriminate.
  - eexists. split; [vm_compute; reflexivity|]. split; reflexivity.
Qed.

(** C2: a request whose message is empty is answered with the validation
    error (422) of the required form field, and nothing is dispatched to the
    host server. *)
Theorem empty_message_is_rejected
    (host_server : HostServer) (now : datetime) (uuid4 : str)
    (form : ChatForm) :
  form_message form = Some [] ->
  post_chat host_server now uuid4 form = ([], Unprocessable [lit "message"]).
Proof. unfold post_chat. intros ->. reflexivity. Qed.

Lemma empty_message_is_rejected_witness :
  post_chat Samples.answering 0%Z Samples.drawn
    {| form_message := Some []; form_user_id := None;
       form_session_id := None; form_files := Some [Samples.photo] |}
  = ([], Unprocessable [lit "message"]).
Proof.
  exact (empty_message_is_rejected Samples.answering 0%Z Samples.drawn
           {| form_message := Some []; form_user_id := None;
              form_session_id := None; form_files := Some [Samples.photo] |}
           eq_refl).
Defined.





(** *** Chat history *)

Lemma recent_window (h : ChatHistory) (limit : Z) :
  (0 <= limit)%Z ->
  length (get_recent_messages h limit)
  = Nat.min (Z.to_nat limit) (length (messages h))
  /\ get_recent_messages h limit `suffix_of` messages h.
Proof.
  intros Hl. unfold get_recent_messages.
  destruct (Z.leb_spec limit 0) as [H0|H0].
  - assert (limit = 0%Z) as -> by lia. split; [reflexivity|].
    apply suffix_nil.
  - split; [rewrite length_drop; lia | apply suffix_drop].
Qed.

(** C7: for a session with a stored history, the history endpoint returns
    the last fifty messages at most, a suffix of the stored messages in their
    order, and reports the length of the whole history as the total. *)
Theorem history_recent_window
    (host_server : HostServer) (session_id : str) (user_id : option str)
    (h : ChatHistory) :
  stored_history host_server session_id user_id = Ok (Some h) ->
  exists r,
    get_chat_history host_server session_id user_id = Returned r
    /\ length (hr_messages r) <= 50
    /\ length (hr_messages r) = Nat.min 50 (length (messages h))
    /\ hr_messages r `suffix_of` messages h
    /\ hr_total_messages r = Some (length (messages h)).
Proof.
  intros Hh. unfold get_chat_history. rewrite Hh. cbn [bind guard].
  eexists. split; [reflexivity|]. cbn [hr_messages hr_total_messages].
  destruct (recent_window h 50 ltac:(lia)) as [Hlen Hsuf].
  change (Z.to_nat 50) with 50 in Hlen.
  repeat split; auto. lia.
Qed.

Lemma history_recent_window_witness :
  exists r,
    get_chat_history Samples.one_user (lit "s1") (Some (lit "u1")) = Returned r
    /\ length (hr_messages r) <= 50
    /\ hr_total_messages r = Some 2.
Proof.
  assert (H : stored_history Samples.one_user (lit "s1") (Some (lit "u1"))
              = Ok (Some Samples.two_turns)) by (vm_compute; reflexivity).
  destruct (history_recent_window _ _ _ _ H) as (r & Hr & Hle & _ & _ & Ht).
  exists r. split; [exact Hr|]. split; [exact Hle | exact Ht].
Defined.

(** C9: for a session identifier without stored history, the history
    endpoint returns, with the status success and an empty list of messages;
    it raises nothing. *)
Theorem absent_history_is_success
    (host_server : HostServer) (session_id : str) (user_id : option str) :
  stored_history host_server session_id user_id = Ok None ->
  exists r,
    get_chat_history host_server session_id user_id = Returned r
    /\ hr_status r = lit "success"
    /\ hr_messages r = []
    /\ hr_session_id r = session_id
    /\ hr_total_messages r = None.
Proof.
  intros Hh. unfold get_chat_history. rewrite Hh. cbn [bind guard].
  eexists. split; [reflexivity|]. repeat split.
Qed.

Lemma absent_history_is_success_witness :
  exists r,
    get_chat_history Samples.answering (lit "unknown") None = Returned r
    /\ hr_status r = lit "success"
    /\ hr_messages r = [].
Proof.
  destruct (absent_history_is_success Samples.answering (lit "unknown") None
              eq_refl) as (r & Hr & Hs & Hm & _).
  exists r. split; [exact Hr|]. split; [exact Hs | exact Hm].
Defined.

(** *** Sessions *)

Lemma getitem_last {A} (l : list A) : getitem l (-1) = last l.
Proof.
  unfold getitem. rewrite last_lookup.
  change (-1 <? 0)%Z with true. cbn match.
  destruct l as [|x l]; [reflexivity|].
  destruct (Z.ltb_spec (-1 + Z.of_nat (length (x :: l))) 0) as [H|H];
    [cbn [length] in H; lia|].
  f_equal. cbn [length]. lia.
Qed.

Lemma last_message_preview_ok (h : ChatHistory) :
  exists preview,
    last_message_preview h = Ok preview /\ Described.preview_of h preview.
Proof.
  unfold last_message_preview, Described.preview_of.
  rewrite getitem_last.
  destruct (messages h) as [|m0 l] eqn:E; cbn [truthy_list].
  - eexists. split; [reflexivity|]. split; [reflexivity|].
    intros m. cbn. discriminate.
  - destruct (last (m0 :: l)) as [m|] eqn:El.
    + eexists. split; [reflexivity|]. split; [discriminate|].
      intros m' [= <-]. split; [reflexivity|].
      intros Hlen. unfold slice_to. rewrite take_ge by exact Hlen.
      reflexivity.
    + apply last_None in El. discriminate.
Qed.

Lemma session_info_ok (session_id : str) (h : ChatHistory) :
  exists info,
    session_info session_id h = Ok info
    /\ si_session_id info = session_id
    /\ si_message_count info = length (messages h)
    /\ Described.preview_of h (si_last_message_preview info).
Proof.
  unfold session_info.
  destruct (last_message_preview_ok h) as (p & -> & Hp). cbn [bind].
  eexists. split; [reflexivity|]. auto.
Qed.

Lemma listing_loop (chat_histories : histories) (acc : list SessionInfo) :
  exists infos,
    for_each
      (fun sessions_info '(session_id, chat_history) =>
         let* info := session_info session_id chat_history in
         Ok (sessions_info ++ [info]))
      chat_histories acc
    = Ok (acc ++ infos)
    /\ Forall2 (fun item info => session_info item.1 item.2 = Ok info)
         chat_histories infos.
Proof.
  revert acc.
  induction chat_histories as [|[sid h] r IH]; intros acc; cbn [for_each].
  - exists []. rewrite app_nil_r. split; [reflexivity | constructor].
  - destruct (session_info_ok sid h) as (i & Hi & _). rewrite Hi. cbn [bind].
    destruct (IH (acc ++ [i])) as (infos & -> & Hall).
    exists (i :: infos). rewrite <- app_assoc. split; [reflexivity|].
    constructor; [exact Hi | exact Hall].
Qed.

Lemma list_active_sessions_ok (chat_histories : histories) (now : datetime) :
  exists r,
    list_active_sessions chat_histories now = Returned r
    /\ ls_status r = lit "success"
    /\ ls_active_sessions r = length chat_histories
    /\ Forall2 (fun item info => session_info item.1 item.2 = Ok info)
         chat_histories (ls_sessions r).
Proof.
  unfold list_active_sessions.
  destruct (listing_loop chat_histories []) as (infos & -> & Hall).
  cbn [bind guard app]. eexists. split; [reflexivity|].
  cbn [ls_status ls_active_sessions ls_sessions].
  split; [reflexivity|]. split; [|exact Hall].
  symmetry. exact (Forall2_length _ _ _ Hall).
Qed.


Lemma lookup_history_app (hs hs' : histories) (k : str) :
  lookup_history (hs ++ hs') k
  = match lookup_history hs k with
    | Some h => Some h
    | None => lookup_history hs' k
    end.
Proof.
  induction hs as [|[k' h] r IH]; cbn [app lookup_history]; [reflexivity|].
  destruct (decide (k = k')); [reflexivity | exact IH].
Qed.

Lemma create_fresh (chat_histories : histories) (created now : datetime)
    (uuid4 : str) :
  lookup_history chat_histories uuid4 = None ->
  exists c,
    create_new_session chat_histories created now uuid4
    = (chat_histories
         ++ [(uuid4, {| messages := []; created_at := created;
                        last_updated := created |})],
       Returned c)
    /\ cs_session_id c = uuid4
    /\ cs_status c = lit "success".
Proof.
  intros Hfresh. unfold create_new_session, _ensure_chat_history.
  rewrite Hfresh. cbn [guard]. eexists. split; [reflexivity|]. auto.
Qed.






Lemma user_loop (host_server : HostServer) (user_id : str)
    (sessions : list str) (acc : list UserSessionEntry) :
  let described entry :=
    forall info, entry = SessionDetails info ->
      exists h,
        get_chat_history_of host_server user_id (si_session_id info)
        = Ok (Some h)
        /\ si_message_count info = length (messages h)
        /\ Described.preview_of h (si_last_message_preview info) in
  Forall described acc ->
  Forall described (fold_left (user_session_step host_server user_id)
                      sessions acc).
Proof.
  intros described. revert acc.
  induction sessions as [|sid r IH]; intros acc Hacc; cbn [fold_left];
    [exact Hacc|].
  apply IH. unfold user_session_step.
  destruct (get_chat_history_of host_server user_id sid) as [[h|]|e] eqn:E;
    cbn [bind].
  - destruct (session_info_ok sid h) as (i & -> & Hsid & Hcount & Hp).
    cbn [bind]. apply Forall_app. split; [exact Hacc|].
    constructor; [|constructor].
    intros info [= <-]. exists h. rewrite Hsid. auto.
  - exact Hacc.
  - apply Forall_app. split; [exact Hacc|].
    constructor; [|constructor]. intros info. discriminate.
Qed.

(** C10: in the listing of the sessions and in the listing of a user's
    sessions, the preview of the last message of every session given with
    its details is the first hundred characters of the content of its most
    recent message followed by three dots, also when the content is no longer
    than that, and is empty for a session without messages. *)
Theorem last_message_preview_of_listed :
  (forall (chat_histories : histories) (now : datetime),
     exists r,
       list_active_sessions chat_histories now = Returned r
       /\ Forall2
            (fun item info =>
               si_session_id info = item.1
               /\ Described.preview_of item.2 (si_last_message_preview info))
            chat_histories (ls_sessions r))
  /\ (forall (host_server : HostServer) (user_id : str) (now : datetime)
             (sessions : list str),
        get_sessions_of host_server user_id = Ok sessions ->
        exists r,
          get_user_sessions host_server user_id now = Returned r
          /\ forall info, SessionDetails info ∈ us_sessions r ->
               exists h,
                 get_chat_history_of host_server user_id (si_session_id info)
                 = Ok (Some h)
                 /\ Described.preview_of h (si_last_message_preview info)).
Proof.
  split.
  - intros chat_histories now.
    destruct (list_active_sessions_ok chat_histories now)
      as (r & Hr & _ & _ & Hall).
    exists r. split; [exact Hr|].
    eapply Forall2_impl; [exact Hall|].
    intros [sid h] info Hi. cbn [fst snd] in *.
    destruct (session_info_ok sid h) as (i & Hi' & Hsid & _ & Hp).
    rewrite Hi in Hi'. injection Hi' as <-. auto.
  - intros host_server user_id now sessions Hs.
    unfold get_user_sessions. rewrite Hs. cbn [bind guard].
    eexists. split; [reflexivity|]. cbn [us_sessions].
    intros info Hin.
    pose proof (user_loop host_server user_id sessions [] (Forall_nil_2 _))
      as Hall.
    rewrite Forall_forall in Hall.
    destruct (Hall _ Hin info eq_refl) as (h & Hh & _ & Hp). eauto.
Qed.

Lemma last_message_preview_of_listed_witness :
  exists r,
    get_user_sessions Samples.one_user (lit "u1") 0%Z = Returned r
    /\ forall info, SessionDetails info ∈ us_sessions r ->
         exists h,
           get_chat_history_of Samples.one_user (lit "u1")
             (si_session_id info) = Ok (Some h)
           /\ Described.preview_of h (si_last_message_preview info).
Proof.
  exact (proj2 last_message_preview_of_listed Samples.one_user (lit "u1")
           0%Z [lit "s1"; lit "s2"] eq_refl).
Defined.

End HostAgentFacts.

(** ** Further facts about the endpoints *)

Module EndpointFacts.
Import Py HostAgent Operations.
Import HostAgentFacts.

(** *** What /chat sends *)

Lemma process_files_uploads (files : option (list UploadFile)) :
  process_files files
  = match omap normalize (uploads files) with
    | [] => None
    | infos => Some infos
    end.
Proof.
  destruct files as [fs|]; [apply process_files_spec | reflexivity].
Qed.

Lemma chat_request
    (host_server : HostServer) (now : datetime) (uuid4 message : str)
    (user_id session_id : option str) (files : option (list UploadFile)) :
  fst (chat host_server now uuid4 message user_id session_id files)
  = [match omap normalize (uploads files) with
     | [] => process_message message user_id (or_default session_id uuid4)
     | infos =>
         process_message_with_files message user_id
           (or_default session_id uuid4) infos
     end].
Proof.
  unfold chat. cbn [fst]. rewrite process_files_uploads.
  destruct (omap normalize (uploads files)); reflexivity.
Qed.

(** X1: [/chat] asks the host server exactly once; the dispatch carries the
    message and the user as given and the session identifier ([uuid4] when
    none is given); it is the text-only operation exactly when no upload has
    a filename, and else the operation with files, with the attachments of
    the uploads that have one. *)
Theorem chat_dispatch_shape
    (host_server : HostServer) (now : datetime) (uuid4 message : str)
    (user_id session_id : option str) (files : option (list UploadFile)) :
  exists c,
    fst (chat host_server now uuid4 message user_id session_id files) = [c]
    /\ message_of c = message
    /\ user_of c = user_id
    /\ session_of c = or_default session_id uuid4
    /\ attachments_of c = omap normalize (uploads files)
    /\ (c = process_message message user_id (or_default session_id uuid4)
        <-> Forall (fun f => truthy (filename f) = false) (uploads files)).
Proof.
  rewrite chat_request. eexists. split; [reflexivity|].
  pose proof (any_filename (uploads files)) as Hany.
  assert (Hall : existsb (fun f => truthy (filename f)) (uploads files)
                 = false
                 <-> Forall (fun f => truthy (filename f) = false)
                       (uploads files)).
  { clear Hany. induction (uploads files) as [|f l IH]; cbn [existsb].
    - split; [constructor | reflexivity].
    - rewrite Forall_cons, <- IH. destruct (truthy (filename f)); cbn;
        split; intros H; try tauto; try discriminate;
        destruct H; discriminate. }
  destruct (omap normalize (uploads files)) as [|a l] eqn:E;
    cbn [message_of user_of session_of attachments_of];
    repeat split; try reflexivity.
  - intros _. apply Hall, Hany. reflexivity.
  - discriminate.
  - intros H. apply Hall, Hany in H. discriminate H.
Qed.

Lemma nameless_omap (fs : list UploadFile) :
  Forall (fun f => truthy (filename f) = false) fs ->
  omap normalize fs = [].
Proof.
  intros H. apply any_filename.
  induction H as [|f fs Hf _ IH]; cbn [existsb]; [reflexivity|].
  rewrite Hf, IH. reflexivity.
Qed.

(** X2: a request whose uploads all lack a filename is handled exactly as a
    request without uploads: the same dispatch and the same answer. *)
Theorem nameless_uploads_as_none
    (host_server : HostServer) (now : datetime) (uuid4 message : str)
    (user_id session_id : option str) (fs : list UploadFile) :
  Forall (fun f => truthy (filename f) = false) fs ->
  chat host_server now uuid4 message user_id session_id (Some fs)
  = chat host_server now uuid4 message user_id session_id None.
Proof.
  intros H. unfold chat. rewrite !process_files_uploads. cbn [uploads omap].
  rewrite (nameless_omap fs H). reflexivity.
Qed.

Lemma nameless_uploads_as_none_witness :
  chat Samples.answering 0%Z Samples.drawn Samples.hello None None
    (Some [Samples.nameless])
  = chat Samples.answering 0%Z Samples.drawn Samples.hello None None None.
Proof.
  apply (nameless_uploads_as_none Samples.answering 0%Z Samples.drawn
           Samples.hello None None [Samples.nameless]).
  repeat constructor.
Defined.

Lemma named_decode (fs : list UploadFile) :
  Forall2
    (fun f a =>
       filename f = Some (name a)
       /\ Base64.b64decode_str (data a) = Some (content f))
    (List.filter (fun f => truthy (filename f)) fs) (omap normalize fs).
Proof.
  induction fs as [|f fs IH]; cbn [List.filter omap list_omap];
    [constructor|].
  pose proof (normalize_named f) as Hn.
  destruct (normalize f) as [a|] eqn:Ha, (truthy (filename f)).
  - constructor; [|exact IH].
    destruct (normalize_data f a Ha) as (Hd & Hf & _).
    split; [exact Hf|]. rewrite Hd.
    apply Base64Facts.b64decode_encode_str.
  - destruct Hn as [Hn _]. specialize (Hn (ex_intro _ a eq_refl)).
    discriminate.
  - destruct Hn as [_ Hn]. destruct (Hn eq_refl). discriminate.
  - exact IH.
Qed.

(** X3: the attachments of the dispatch are, in the order of the uploads, one
    for each upload with a filename; each carries that filename as its name,
    and its data decodes to the bytes of that upload. *)
Theorem forwarded_attachments_decode
    (host_server : HostServer) (now : datetime) (uuid4 message : str)
    (user_id session_id : option str) (files : option (list UploadFile)) :
  exists c,
    fst (chat host_server now uuid4 message user_id session_id files) = [c]
    /\ Forall2
         (fun f a =>
            filename f = Some (name a)
            /\ Base64.b64decode_str (data a) = Some (content f))
         (List.filter (fun f => truthy (filename f)) (uploads files))
         (attachments_of c).
Proof.
  unfold chat. cbn [fst]. rewrite process_files_uploads.
  pose proof (named_decode (uploads files)) as H.
  destruct (omap normalize (uploads files)) as [|a l];
    eexists; (split; [reflexivity|]); cbn [attachments_of]; exact H.
Qed.

Lemma b64encode_length (bs : list byte) :
  length (Base64.b64encode bs) = 4 * ((length bs + 2) / 3).
Proof.
  induction bs as [| b0 | b0 b1 | b0 b1 b2 rest IH]
    using Base64Facts.list_ind3; try reflexivity.
  cbn [Base64.b64encode length]. rewrite IH.
  replace (S (S (S (length rest))) + 2) with (length rest + 2 + 1 * 3)
    by lia.
  rewrite Nat.div_add by lia. lia.
Qed.

(** X4: the data of an attachment is ASCII text of four characters for every
    three bytes of the upload, the last group filled up. *)
Theorem attachment_data_shape (file : UploadFile) (a : FileInfo) :
  normalize file = Some a ->
  length (data a) = 4 * ((length (content file) + 2) / 3)
  /\ Forall (fun ch => (ch < 128)%N) (data a).
Proof.
  intros Ha. destruct (normalize_data file a Ha) as (-> & _ & _).
  unfold Base64.b64encode_str, Base64.decode_ascii. split.
  - rewrite length_map. apply b64encode_length.
  - apply Forall_map, Base64Facts.b64encode_ascii.
Qed.

Lemma attachment_data_shape_witness :
  exists a,
    normalize Samples.photo = Some a
    /\ length (data a) = 8
    /\ Forall (fun ch => (ch < 128)%N) (data a).
Proof.
  exists {| name := lit "photo.png"; mime_type := lit "image/png";
            data := Base64.b64encode_str (content Samples.photo) |}.
  split; [reflexivity|].
  exact (attachment_data_shape Samples.photo _ eq_refl).
Defined.

(** *** What /chat answers *)

Lemma new_ChatResponse_all_fields
    (response agent_used session_id clarified_message analysis data : value)
    (status : str) (timestamp : isostr) (r : ChatResponse) :
  new_ChatResponse response agent_used session_id clarified_message analysis
    data status timestamp = Ok r ->
  as_str response = Some (cr_response r)
  /\ as_optional_str agent_used = Some (cr_agent_used r)
  /\ as_optional_str session_id = Some (cr_session_id r)
  /\ as_optional_str clarified_message = Some (cr_clarified_message r)
  /\ as_optional_str analysis = Some (cr_analysis r)
  /\ as_optional_str data = Some (cr_data r)
  /\ cr_status r = status
  /\ cr_timestamp r = timestamp.
Proof.
  unfold new_ChatResponse.
  destruct (as_str response), (as_optional_str agent_used),
    (as_optional_str session_id), (as_optional_str clarified_message),
    (as_optional_str analysis), (as_optional_str data);
    intros [= <-]; repeat split.
Qed.

Lemma subscript_get (d : dict) (k : str) (v : value) :
  subscript d k = Ok v -> get d k = v /\ d !! k = Some v.
Proof.
  unfold subscript, get. destruct (d !! k); intros [= <-]; auto.
Qed.

(** X5: when the answer of the host server has no response key, [/chat]
    raises an HTTPException with status code 500 whose detail names the
    missing key. *)
Theorem missing_response_is_http_500
    (host_server : HostServer) (now : datetime) (uuid4 message : str)
    (user_id session_id : option str) (files : option (list UploadFile))
    (c : dispatch) (result : dict) :
  fst (chat host_server now uuid4 message user_id session_id files) = [c] ->
  run host_server c = Ok result ->
  result !! lit "response" = None ->
  snd (chat host_server now uuid4 message user_id session_id files)
  = HTTPError {| status_code := 500;
                 detail := lit "Lỗi khi xử lý message: 'response'" |}.
Proof.
  intros Hc Hrun Hnone.
  rewrite (chat_outcome _ _ _ _ _ _ _ c Hc), Hrun. cbn [bind].
  unfold subscript. rewrite Hnone. cbn [bind guard].
  replace (lit "Lỗi khi xử lý message: 'response'")
    with (lit "Lỗi khi xử lý message: " ++ str_exn (KeyError (lit "response")))
    by (vm_compute; reflexivity).
  reflexivity.
Qed.

Lemma missing_response_is_http_500_witness :
  snd (chat MoreSamples.mute 0%Z Samples.drawn Samples.hello None None None)
  = HTTPError {| status_code := 500;
                 detail := lit "Lỗi khi xử lý message: 'response'" |}.
Proof.
  pose (c := process_message Samples.hello None Samples.drawn).
  assert (H : MoreSamples.mute_answer c !! lit "response" = None)
    by (vm_compute; reflexivity).
  exact (missing_response_is_http_500 MoreSamples.mute 0%Z Samples.drawn
           Samples.hello None None None c (MoreSamples.mute_answer c)
           eq_refl eq_refl H).
Defined.

(** X7: a ChatResponse that [/chat] returns repeats the result of the host
    server: the result has a response, a response that is a string is
    returned as it is, each optional field that is a string under its key is
    returned as it is and is None when the key is absent or holds None, the
    status is success and the timestamp is the reading of the clock. *)
Theorem chat_response_repeats_result
    (host_server : HostServer) (now : datetime) (uuid4 message : str)
    (user_id session_id : option str) (files : option (list UploadFile))
    (c : dispatch) (result : dict) (r : ChatResponse) :
  fst (chat host_server now uuid4 message user_id session_id files) = [c] ->
  run host_server c = Ok result ->
  snd (chat host_server now uuid4 message user_id session_id files)
  = Returned r ->
  let repeats key field :=
    (forall s, get result (lit key) = VStr s -> field = Some s)
    /\ (get result (lit key) = VNone -> field = None) in
  is_Some (result !! lit "response")
  /\ (forall s, result !! lit "response" = Some (VStr s) -> cr_response r = s)
  /\ repeats "agent_used"%string (cr_agent_used r)
  /\ repeats "session_id"%string (cr_session_id r)
  /\ repeats "clarified_message"%string (cr_clarified_message r)
  /\ repeats "analysis"%string (cr_analysis r)
  /\ repeats "data"%string (cr_data r)
  /\ cr_status r = lit "success"
  /\ cr_timestamp r = isoformat now.
Proof.
  intros Hc Hrun Hret repeats.
  rewrite (chat_outcome _ _ _ _ _ _ _ c Hc), Hrun in Hret.
  cbn [bind] in Hret.
  destruct (subscript result (lit "response")) as [v|e] eqn:Hsub;
    cbn [bind] in Hret; [|discriminate].
  destruct (new_ChatResponse _ _ _ _ _ _ _ _) as [r'|e] eqn:Hr;
    [|discriminate].
  cbn [guard] in Hret. injection Hret as <-.
  destruct (subscript_get _ _ _ Hsub) as [_ Hv].
  destruct (new_ChatResponse_all_fields _ _ _ _ _ _ _ _ _ Hr)
    as (H1 & H2 & H3 & H4 & H5 & H6 & H7 & H8).
  assert (Hopt : forall key field,
             as_optional_str (get result (lit key)) = Some field ->
             repeats key field).
  { intros key field Hf. split.
    - intros s Hs. rewrite Hs in Hf. cbn in Hf. congruence.
    - intros Hs. rewrite Hs in Hf. cbn in Hf. congruence. }
  split; [rewrite Hv; eauto|]. split.
  - intros s Hs. rewrite Hv in Hs. injection Hs as ->. cbn in H1. congruence.
  - repeat split; try apply Hopt; assumption.
Qed.

Lemma chat_response_repeats_result_witness :
  exists r,
    snd (chat Samples.answering 0%Z Samples.drawn Samples.hello None None None)
    = Returned r
    /\ cr_status r = lit "success"
    /\ cr_timestamp r = isoformat 0%Z.
Proof.
  pose (c := process_message Samples.hello None Samples.drawn).
  pose (r := {| cr_response := lit "agent unavailable";
                cr_agent_used := None;
                cr_session_id := Some Samples.drawn;
                cr_clarified_message := None;
                cr_analysis := None;
                cr_data := None;
                cr_status := lit "success";
                cr_timestamp := isoformat 0%Z |}).
  assert (Hr : snd (chat Samples.answering 0%Z Samples.drawn Samples.hello
                      None None None) = Returned r)
    by (vm_compute; reflexivity).
  destruct (chat_response_repeats_result Samples.answering 0%Z Samples.drawn
              Samples.hello None None None c (Samples.answer c) r
              eq_refl eq_refl Hr)
    as (_ & _ & _ & _ & _ & _ & _ & Hs & Ht).
  exists r. split; [exact Hr|]. split; [exact Hs | exact Ht].
Defined.

(** *** Sessions *)

Lemma listing_entries (chat_histories : histories)
    (infos : list SessionInfo) :
  Forall2 (fun item info => session_info item.1 item.2 = Ok info)
    chat_histories infos ->
  map si_session_id infos = map fst chat_histories
  /\ map si_message_count infos
     = map (fun item => length (messages item.2)) chat_histories
  /\ map si_created_at infos
     = map (fun item => isoformat (created_at item.2)) chat_histories
  /\ map si_last_updated infos
     = map (fun item => isoformat (last_updated item.2)) chat_histories.
Proof.
  induction 1 as [|[sid h] info l infos Hi _ IH]; [auto|].
  destruct IH as (IH1 & IH2 & IH3 & IH4). cbn [fst snd map] in *.
  unfold session_info in Hi.
  destruct (last_message_preview h); [|discriminate].
  cbn [bind] in Hi. injection Hi as <-. cbn.
  rewrite IH1, IH2, IH3, IH4. auto.
Qed.

(** X9: the listing of the sessions never fails; it has one entry for each
    stored session, in the order in which the sessions were stored, with the
    identifier, the number of messages and the two timestamps of that
    session, and the number of active sessions it reports is the number of
    stored sessions. *)
Theorem listing_follows_store (chat_histories : histories) (now : datetime) :
  exists r,
    list_active_sessions chat_histories now = Returned r
    /\ ls_status r = lit "success"
    /\ ls_active_sessions r = length chat_histories
    /\ ls_timestamp r = isoformat now
    /\ map si_session_id (ls_sessions r) = map fst chat_histories
    /\ map si_message_count (ls_sessions r)
       = map (fun item => length (messages item.2)) chat_histories
    /\ map si_created_at (ls_sessions r)
       = map (fun item => isoformat (created_at item.2)) chat_histories
    /\ map si_last_updated (ls_sessions r)
       = map (fun item => isoformat (last_updated item.2)) chat_histories.
Proof.
  unfold list_active_sessions.
  destruct (listing_loop chat_histories []) as (infos & -> & Hall).
  cbn [bind guard app]. eexists. split; [reflexivity|].
  cbn [ls_status ls_active_sessions ls_sessions ls_timestamp].
  split; [reflexivity|].
  split; [symmetry; exact (Forall2_length _ _ _ Hall)|].
  split; [reflexivity|]. apply listing_entries, Hall.
Qed.

Lemma preview_is_bounded (h : ChatHistory) (preview : str) :
  Described.preview_of h preview -> length preview <= 103.
Proof.
  intros [Hnil Hlast].
  destruct (last (messages h)) as [m|] eqn:E.
  - destruct (Hlast m eq_refl) as [-> _].
    rewrite length_app, length_take. change (length (lit "...")) with 3. lia.
  - apply last_None in E. rewrite (Hnil E). cbn. lia.
Qed.

(** X10: a preview of the last message is never longer than a hundred and
    three characters, in the listing of the sessions and in the listing of a
    user's sessions. *)
Theorem previews_are_bounded :
  (forall (chat_histories : histories) (now : datetime),
     exists r,
       list_active_sessions chat_histories now = Returned r
       /\ Forall (fun info => length (si_last_message_preview info) <= 103)
            (ls_sessions r))
  /\ (forall (host_server : HostServer) (user_id : str) (now : datetime)
             (sessions : list str),
        get_sessions_of host_server user_id = Ok sessions ->
        exists r,
          get_user_sessions host_server user_id now = Returned r
          /\ forall info, SessionDetails info ∈ us_sessions r ->
               length (si_last_message_preview info) <= 103).
Proof.
  split.
  - intros chat_histories now.
    destruct (list_active_sessions_ok chat_histories now)
      as (r & Hr & _ & _ & Hall).
    exists r. split; [exact Hr|]. clear Hr.
    induction Hall as [|[sid h] info l infos Hi _ IH]; [constructor|].
    constructor; [|exact IH].
    cbn [fst snd] in Hi.
    destruct (session_info_ok sid h) as (i & Hi' & _ & _ & Hp).
    rewrite Hi in Hi'. injection Hi' as <-.
    exact (preview_is_bounded h _ Hp).
  - intros host_server user_id now sessions Hs.
    unfold get_user_sessions. rewrite Hs. cbn [bind guard].
    eexists. split; [reflexivity|]. cbn [us_sessions].
    intros info Hin.
    pose proof (user_loop host_server user_id sessions [] (Forall_nil_2 _))
      as Hall.
    rewrite Forall_forall in Hall.
    destruct (Hall _ Hin info eq_refl) as (h & _ & _ & Hp).
    exact (preview_is_bounded h _ Hp).
Qed.

Lemma previews_are_bounded_witness :
  exists r,
    get_user_sessions Samples.one_user (lit "u1") 0%Z = Returned r
    /\ forall info, SessionDetails info ∈ us_sessions r ->
         length (si_last_message_preview info) <= 103.
Proof.
  exact (proj2 previews_are_bounded Samples.one_user (lit "u1") 0%Z
           [lit "s1"; lit "s2"] eq_refl).
Defined.

Lemma user_fold_entries (host_server : HostServer) (user_id : str)
    (sessions : list str) (acc : list UserSessionEntry) :
  exists entries,
    fold_left (user_session_step host_server user_id) sessions acc
    = acc ++ entries
    /\ Forall2
         (fun session_id entry =>
            match get_chat_history_of host_server user_id session_id with
            | Raise _ =>
                entry
                = SessionError session_id (lit "Cannot retrieve details")
            | Ok (Some h) =>
                exists info,
                  entry = SessionDetails info
                  /\ session_info session_id h = Ok info
            | Ok None => False
            end)
         (List.filter (leaves_entry host_server user_id) sessions) entries.
Proof.
  revert acc. induction sessions as [|sid r IH]; intros acc;
    cbn [fold_left List.filter].
  - exists []. rewrite app_nil_r. split; [reflexivity | constructor].
  - unfold user_session_step at 2. unfold leaves_entry at 1.
    destruct (get_chat_history_of host_server user_id sid) as [[h|]|e] eqn:E;
      cbn [bind].
    + destruct (session_info_ok sid h) as (i & Hi & _). rewrite Hi.
      cbn [bind]. destruct (IH (acc ++ [SessionDetails i]))
        as (entries & -> & Hall).
      exists (SessionDetails i :: entries). rewrite <- app_assoc.
      split; [reflexivity|]. constructor; [|exact Hall].
      rewrite E. eauto.
    + apply IH.
    + destruct (IH (acc ++ [SessionError sid
                              (lit "Cannot retrieve details")]))
        as (entries & -> & Hall).
      eexists (_ :: entries). rewrite <- app_assoc.
      split; [reflexivity|]. constructor; [|exact Hall].
      rewrite E. reflexivity.
Qed.

(** X11: in the listing of a user's sessions, the entries stand, in the
    order of the user's sessions, for the sessions whose lookup does not
    return an empty answer: a session whose history is found is listed with
    its details, a session whose lookup fails is listed with the error
    marker and does not fail the listing, and a session without history is
    left out; the total is the number of entries.  Only when the sessions of
    the user cannot be fetched does the endpoint raise, an HTTPException
    with status code 500 and the text of the failure. *)
Theorem user_listing_entries
    (host_server : HostServer) (user_id : str) (now : datetime) :
  (forall sessions,
     get_sessions_of host_server user_id = Ok sessions ->
     exists r,
       get_user_sessions host_server user_id now = Returned r
       /\ us_status r = lit "success"
       /\ us_user_id r = user_id
       /\ us_total_sessions r = length (us_sessions r)
       /\ Forall2
            (fun session_id entry =>
               match get_chat_history_of host_server user_id session_id with
               | Raise _ =>
                   entry
                   = SessionError session_id (lit "Cannot retrieve details")
               | Ok (Some h) =>
                   exists info,
                     entry = SessionDetails info
                     /\ session_info session_id h = Ok info
               | Ok None => False
               end)
            (List.filter (leaves_entry host_server user_id) sessions)
            (us_sessions r))
  /\ (forall e,
        get_sessions_of host_server user_id = Raise e ->
        get_user_sessions host_server user_id now
        = HTTPError {| status_code := 500; detail := str_exn e |}).
Proof.
  split.
  - intros sessions Hs. unfold get_user_sessions. rewrite Hs.
    cbn [bind guard]. eexists. split; [reflexivity|].
    cbn [us_status us_user_id us_total_sessions us_sessions].
    split; [reflexivity|]. split; [reflexivity|]. split; [reflexivity|].
    destruct (user_fold_entries host_server user_id sessions [])
      as (entries & -> & Hall).
    exact Hall.
  - intros e He. unfold get_user_sessions. rewrite He. reflexivity.
Qed.

Lemma user_listing_entries_witness :
  exists r,
    get_user_sessions Samples.one_user (lit "u1") 0%Z = Returned r
    /\ us_total_sessions r = length (us_sessions r)
    /\ Forall2
         (fun session_id entry =>
            match get_chat_history_of Samples.one_user (lit "u1") session_id
            with
            | Raise _ =>
                entry
                = SessionError session_id (lit "Cannot retrieve details")
            | Ok (Some h) =>
                exists info,
                  entry = SessionDetails info
                  /\ session_info session_id h = Ok info
            | Ok None => False
            end)
         (List.filter (leaves_entry Samples.one_user (lit "u1"))
            [lit "s1"; lit "s2"])
         (us_sessions r).
Proof.
  destruct (proj1 (user_listing_entries Samples.one_user (lit "u1") 0%Z)
              [lit "s1"; lit "s2"] eq_refl)
    as (r & Hr & _ & _ & Ht & Hall).
  exists r. split; [exact Hr|]. split; [exact Ht | exact Hall].
Defined.

Lemma listing_functional (chat_histories : histories)
    (infos infos' : list SessionInfo) :
  Forall2 (fun item info => session_info item.1 item.2 = Ok info)
    chat_histories infos ->
  Forall2 (fun item info => session_info item.1 item.2 = Ok info)
    chat_histories infos' ->
  infos = infos'.
Proof.
  intros H. revert infos'.
  induction H as [|item info l infos Hi _ IH]; intros infos' H';
    inversion H' as [|? info' ? infos'' Hi' Hrest]; subst; [reflexivity|].
  rewrite Hi in Hi'. injection Hi' as <-. f_equal. apply IH, Hrest.
Qed.

(** X12: creating a session under an identifier that is new to the store
    adds one entry at the end of the listing of the sessions and leaves the
    entries before it as they were; the new entry has that identifier, no
    message, an empty preview and the time of creation, and the number of
    active sessions grows by one. *)
Theorem create_then_list
    (chat_histories : histories) (created now now' : datetime)
    (uuid4 : str) :
  lookup_history chat_histories uuid4 = None ->
  exists c after r r' info,
    create_new_session chat_histories created now uuid4
    = (after, Returned c)
    /\ cs_session_id c = uuid4
    /\ list_active_sessions chat_histories now' = Returned r
    /\ list_active_sessions after now' = Returned r'
    /\ ls_sessions r' = ls_sessions r ++ [info]
    /\ ls_active_sessions r' = S (ls_active_sessions r)
    /\ si_session_id info = uuid4
    /\ si_message_count info = 0
    /\ si_last_message_preview info = []
    /\ si_created_at info = isoformat created.
Proof.
  intros Hfresh.
  destruct (create_fresh chat_histories created now uuid4 Hfresh)
    as (c & Hc & Hid & _).
  set (h := {| messages := []; created_at := created;
               last_updated := created |}) in *.
  destruct (list_active_sessions_ok chat_histories now')
    as (r & Hr & _ & Hn & Hall).
  destruct (list_active_sessions_ok (chat_histories ++ [(uuid4, h)]) now')
    as (r' & Hr' & _ & Hn' & Hall').
  apply Forall2_app_inv_l in Hall' as (l1 & l2 & H1 & H2 & Hsplit).
  apply Forall2_cons_inv_l in H2 as (info & l3 & Hinfo & Hnil & ->).
  apply Forall2_nil_inv_l in Hnil as ->.
  exists c, (chat_histories ++ [(uuid4, h)]), r, r', info.
  rewrite (listing_functional _ _ _ Hall H1).
  cbn [fst snd] in Hinfo. cbv [session_info last_message_preview h] in Hinfo.
  cbn in Hinfo. injection Hinfo as <-.
  repeat split; try assumption; try reflexivity.
  rewrite Hn', Hn, length_app. cbn [length]. lia.
Qed.

Lemma create_then_list_witness :
  exists c after r r' info,
    create_new_session MoreSamples.one_session 7%Z 8%Z Samples.drawn
    = (after, Returned c)
    /\ cs_session_id c = Samples.drawn
    /\ list_active_sessions MoreSamples.one_session 9%Z = Returned r
    /\ list_active_sessions after 9%Z = Returned r'
    /\ ls_sessions r' = ls_sessions r ++ [info]
    /\ ls_active_sessions r' = S (ls_active_sessions r)
    /\ si_session_id info = Samples.drawn
    /\ si_message_count info = 0
    /\ si_last_message_preview info = []
    /\ si_created_at info = isoformat 7%Z.
Proof.
  assert (H : lookup_history MoreSamples.one_session Samples.drawn = None)
    by (vm_compute; reflexivity).
  exact (create_then_list MoreSamples.one_session 7%Z 8%Z 9%Z Samples.drawn
           H).
Defined.

Lemma lookup_history_keys (hs : histories) (k : str) :
  lookup_history hs k = None <-> k ∉ map fst hs.
Proof.
  induction hs as [|[k' h] r IH]; cbn [lookup_history map fst].
  - split; [intros _; apply not_elem_of_nil | reflexivity].
  - rewrite not_elem_of_cons.
    destruct (decide (k = k')) as [->|Hne]; [|tauto].
    split; [discriminate | intros [H _]; congruence].
Qed.

(** X13: creating a session never disturbs the store: every history found
    before is found unchanged afterwards, the new identifier is found
    afterwards, an identifier that was already stored leaves the store as it
    was, and identifiers stay unique. *)
Theorem create_keeps_sessions
    (chat_histories : histories) (created now : datetime) (uuid4 : str) :
  let after :=
    fst (create_new_session chat_histories created now uuid4) in
  (forall k h,
     lookup_history chat_histories k = Some h ->
     lookup_history after k = Some h)
  /\ is_Some (lookup_history after uuid4)
  /\ (is_Some (lookup_history chat_histories uuid4) ->
      after = chat_histories)
  /\ (NoDup (map fst chat_histories) -> NoDup (map fst after)).
Proof.
  unfold create_new_session, _ensure_chat_history.
  destruct (lookup_history chat_histories uuid4) as [h0|] eqn:E;
    cbn [fst].
  - rewrite E. repeat split; eauto.
  - repeat split.
    + intros k h Hk. rewrite lookup_history_app, Hk. reflexivity.
    + rewrite lookup_history_app, E. cbn [lookup_history].
      destruct (decide (uuid4 = uuid4)); [eauto | congruence].
    + intros [? H]. discriminate H.
    + intros Hnd. rewrite map_app. cbn [map fst].
      apply NoDup_app. split; [exact Hnd|]. split.
      * intros k Hk Hk'. apply list_elem_of_singleton in Hk' as ->.
        apply lookup_history_keys in E. contradiction.
      * apply NoDup_singleton.
Qed.

Lemma create_keeps_sessions_witness :
  lookup_history
    (fst (create_new_session MoreSamples.one_session 7%Z 8%Z (lit "s1")))
    (lit "s1")
  = Some Samples.two_turns.
Proof.
  assert (H : lookup_history MoreSamples.one_session (lit "s1")
              = Some Samples.two_turns) by (vm_compute; reflexivity).
  exact (proj1 (create_keeps_sessions MoreSamples.one_session 7%Z 8%Z
                  (lit "s1")) (lit "s1") Samples.two_turns H).
Defined.

(** *** Clearing *)

(** X14: clearing the history of a session asks the host server once, and
    addresses the store the history endpoint reads for the same parameters:
    the store of the user when a non-empty user identifier is given, else the
    fallback by session.  When the clearing succeeds the endpoint returns
    success with the session and the user as given; when it fails the
    endpoint raises an HTTPException with status code 500 and the text of the
    failure. *)
Theorem clearing_matches_lookup
    (clear : clearing -> result unit) (now : datetime) (session_id : str)
    (user_id : option str) :
  (forall u, user_id = Some u -> u <> [] ->
     fst (clear_chat_history clear now session_id user_id)
     = [clear_chat_history_of u session_id]
     /\ forall host_server,
          stored_history host_server session_id user_id
          = get_chat_history_of host_server u session_id)
  /\ (truthy user_id = false ->
      fst (clear_chat_history clear now session_id user_id)
      = [clear_chat_history_fallback session_id]
      /\ forall host_server,
           stored_history host_server session_id user_id
           = get_chat_history_fallback host_server session_id)
  /\ (forall request,
        fst (clear_chat_history clear now session_id user_id) = [request] ->
        (clear request = Ok tt ->
         exists r,
           snd (clear_chat_history clear now session_id user_id) = Returned r
           /\ cl_status r = lit "success"
           /\ cl_session_id r = session_id
           /\ cl_user_id r = user_id)
        /\ (forall e, clear request = Raise e ->
            snd (clear_chat_history clear now session_id user_id)
            = HTTPError {| status_code := 500; detail := str_exn e |})).
Proof.
  unfold clear_chat_history, stored_history. cbn [fst snd].
  split; [|split].
  - intros u -> Hu. apply truthy_str_nonempty in Hu. rewrite Hu. auto.
  - unfold truthy. destruct user_id as [u|]; [intros ->|]; auto.
  - intros request [= <-]. split.
    + intros ->. cbn [bind guard]. eexists. split; [reflexivity|]. auto.
    + intros e ->. reflexivity.
Qed.

Lemma clearing_matches_lookup_witness :
  snd (clear_chat_history MoreSamples.refusing 0%Z (lit "s1") (Some []))
  = HTTPError {| status_code := 500;
                 detail := str_exn (Exception (lit "no such store")) |}.
Proof.
  exact (proj2 (proj2 (proj2 (clearing_matches_lookup MoreSamples.refusing
                                0%Z (lit "s1") (Some [])))
                  (clear_chat_history_fallback (lit "s1")) eq_refl)
           (Exception (lit "no such store")) eq_refl).
Defined.

End EndpointFacts.
